(** * histogram_avg_hourly_per_site_day.py: a shallow embedding

    The script reads a JSON export of raw hourly counts, keeps the records
    of one calendar month, averages them per (site, day), averages those
    per day across sites and draws the result.

    Python values are modelled as they reach the script after [json.load]:
    integers are [Z], floats are IEEE binary64 ([PrimFloat.float]), strings
    are [string] (bytes; the keys and timestamps the script looks at are
    ASCII), dictionaries are association lists in insertion order.
    Exceptions are the [Raise] branch of [result]. *)

From Stdlib Require Import ZArith List String Ascii Bool Lia QArith.
From Stdlib Require Import Numbers.DecimalString.
From Stdlib Require Import Sorting.Permutation.
From Stdlib Require Import Floats.PrimFloat Floats.FloatOps Floats.SpecFloat.
Import ListNotations.
Open Scope string_scope.
Open Scope Z_scope.

Set Implicit Arguments.

(* ------------------------------------------------------------------ *)
(** ** Exceptions *)

Inductive exn : Type :=
| KeyError | TypeError | ValueError | OverflowError
| ZeroDivisionError | StatisticsError.

Inductive result (A : Type) : Type :=
| Ok (a : A)
| Raise (e : exn).

Arguments Ok {A} a.
Arguments Raise {A} e.

Definition bind {A B : Type} (r : result A) (k : A -> result B) : result B :=
  match r with
  | Ok a => k a
  | Raise e => Raise e
  end.

Notation "x <- c ;; k" := (bind c (fun x => k))
  (at level 61, c at next level, right associativity).

Fixpoint mapM {A B : Type} (f : A -> result B) (l : list A) : result (list B) :=
  match l with
  | [] => Ok []
  | a :: l' => b <- f a ;; bs <- mapM f l' ;; Ok (b :: bs)
  end.

(* ------------------------------------------------------------------ *)
(** ** JSON values, as [json.load] returns them *)

#[warnings="-register-all"]
Inductive json : Type :=
| JNull
| JBool (b : bool)
| JInt (n : Z)
| JFloat (f : float)
| JStr (s : string)
| JList (items : list json)
| JObj (members : list (string * json)).

(* ------------------------------------------------------------------ *)
(** ** Python numbers *)

(** The integer nearest to [z] among the binary64 values, ties to even;
    an infinity when [z] is beyond the range. *)
Definition Z2float (z : Z) : float :=
  SF2Prim (binary_normalize prec emax z 0 false).

(** [float(n)] for an [int]: [OverflowError] when [n] is too large. *)
Definition float_of_Z (z : Z) : result float :=
  let f := Z2float z in
  if is_infinity f then Raise OverflowError else Ok f.

(** [float(b)] for a [bool]. *)
Definition Z_of_bool (b : bool) : Z := if b then 1 else 0.

(** Truncation toward zero of a finite float ([None] on nan and the
    infinities). A finite float is [±m * 2^e]. *)
Definition trunc_float (f : float) : option Z :=
  match Prim2SF f with
  | S754_zero _ => Some 0
  | S754_finite s m e =>
      let a := Z.shiftl (Zpos m) e in
      Some (if s then - a else a)
  | S754_infinity _ | S754_nan => None
  end.

(** Rounding of a finite float to the nearest integer, ties to even. *)
Definition round_half_even (f : float) : option Z :=
  match Prim2SF f with
  | S754_zero _ => Some 0
  | S754_finite s m e =>
      let a :=
        if 0 <=? e then Z.shiftl (Zpos m) e
        else
          let q := Z.shiftr (Zpos m) (- e) in
          let r := Zpos m - Z.shiftl q (- e) in
          let half := Z.shiftl 1 (- e - 1) in
          match r ?= half with
          | Lt => q
          | Gt => q + 1
          | Eq => if Z.even q then q else q + 1
          end in
      Some (if s then - a else a)
  | S754_infinity _ | S754_nan => None
  end.

(** The exact value of a number, for [==] between [int], [bool] and
    [float]: Python compares them by value, not by representation. *)
Inductive pynum : Type :=
| PNaN
| PInf (neg : bool)
| PFin (q : Q).

Definition exact_of_float (f : float) : pynum :=
  match Prim2SF f with
  | S754_nan => PNaN
  | S754_infinity s => PInf s
  | S754_zero _ => PFin (0 # 1)
  | S754_finite s m e =>
      let n := if s then Zneg m else Zpos m in
      PFin (if 0 <=? e then (Z.shiftl n e # 1)
            else (n # Z.to_pos (Z.shiftl 1 (- e))))
  end.

Definition py_number (v : json) : option pynum :=
  match v with
  | JBool b => Some (PFin (Z_of_bool b # 1))
  | JInt n => Some (PFin (n # 1))
  | JFloat f => Some (exact_of_float f)
  | _ => None
  end.

(** [x == y] on numbers. The decoder returns one and the same object for
    every [NaN] token, and containers compare by identity first, so a key
    holding that object is found again. *)
Definition num_eqb (x y : pynum) : bool :=
  match x, y with
  | PNaN, PNaN => true
  | PInf a, PInf b => Bool.eqb a b
  | PFin p, PFin q => Qeq_bool p q
  | _, _ => false
  end.

(* ------------------------------------------------------------------ *)
(** ** Strings *)

Definition is_char (c d : ascii) : bool := Ascii.eqb c d.

(** [s.replace('Z', '+00:00')] *)
Fixpoint replace_Z (s : string) : string :=
  match s with
  | EmptyString => EmptyString
  | String c s' =>
      if is_char c "Z" then "+00:00" ++ replace_Z s'
      else String c (replace_Z s')
  end.

(** [s.split('.')[0]] *)
Fixpoint split_dot_head (s : string) : string :=
  match s with
  | EmptyString => EmptyString
  | String c s' =>
      if is_char c "." then EmptyString else String c (split_dot_head s')
  end.

(** [s.split('-')[-1]] *)
Fixpoint split_dash_last (s : string) : string :=
  match s with
  | EmptyString => EmptyString
  | String c s' =>
      if existsb (fun d => is_char d "-") (list_ascii_of_string s')
      then split_dash_last s'
      else if is_char c "-" then s' else s
  end.

(** [k in s] for two strings: [k] occurs in [s]. *)
Fixpoint str_contains (k s : string) : bool :=
  if String.prefix k s then true
  else match s with
       | EmptyString => false
       | String _ s' => str_contains k s'
       end.

Definition digit_val (c : ascii) : option Z :=
  let n := Z.of_nat (nat_of_ascii c) in
  if (48 <=? n) && (n <=? 57) then Some (n - 48) else None.

(** Exactly [n] decimal digits at the head of [s]; the value and the rest. *)
Fixpoint parse_digits (n : nat) (acc : Z) (s : string) : option (Z * string) :=
  match n with
  | O => Some (acc, s)
  | S n' =>
      match s with
      | EmptyString => None
      | String c s' =>
          match digit_val c with
          | Some d => parse_digits n' (10 * acc + d) s'
          | None => None
          end
      end
  end.

(** The [w] low decimal digits of [z], zero padded: ["%0wd"] for
    [0 <= z < 10^w]. *)
Fixpoint fixed_digits (w : nat) (z : Z) (acc : string) : string :=
  match w with
  | O => acc
  | S w' =>
      fixed_digits w' (z / 10)
        (String (ascii_of_nat (48 + Z.to_nat (z mod 10))) acc)
  end.

(** [int(s)] for a string of decimal digits; [ValueError] otherwise. (The
    signs, blanks and underscores that [int] also reads do not occur in
    the day of a date string, the only text the script gives it.) *)
Definition int_of_string (s : string) : result Z :=
  match s with
  | EmptyString => Raise ValueError
  | _ =>
      match parse_digits (String.length s) 0 s with
      | Some (v, _) => Ok v
      | None => Raise ValueError
      end
  end.

(* ------------------------------------------------------------------ *)
(** ** [datetime]

    The standard library's [datetime], as far as the script uses it: the
    checked constructor, [fromtimestamp(t, tz=timezone.utc)],
    [fromisoformat] with the grammar of its documentation,
    [YYYY-MM-DD[*HH[:MM[:SS[.fff[fff]]]][+HH:MM[:SS[.ffffff]]]]] (the
    grammar of Python 3.7 to 3.10, for which the script writes [Z] as
    [+00:00] and cuts long fractions), and [date().isoformat()]. Which
    exception class a failing call raises is indicative only: the script
    catches [Exception]. *)

Record datetime : Type := mkDatetime {
  year : Z;
  month : Z;
  day : Z;
  hour : Z;
  minute : Z;
  second : Z;
  microsecond : Z;
  tzinfo : option Z   (* UTC offset in microseconds; [None] when naive *)
}.

Definition is_leap (y : Z) : bool :=
  (y mod 4 =? 0) && (negb (y mod 100 =? 0) || (y mod 400 =? 0)).

Definition days_in_month (y m : Z) : Z :=
  if m =? 2 then (if is_leap y then 29 else 28)
  else if (m =? 4) || (m =? 6) || (m =? 9) || (m =? 11) then 30
  else 31.

Definition in_range (lo x hi : Z) : bool := (lo <=? x) && (x <=? hi).

(** [datetime(y, m, d, hh, mm, ss, us, tzinfo)]: every field is checked. *)
Definition datetime_new (y m d hh mi ss us : Z) (tz : option Z)
  : result datetime :=
  if in_range 1 y 9999 && in_range 1 m 12
     && in_range 1 d (days_in_month y m)
     && in_range 0 hh 23 && in_range 0 mi 59 && in_range 0 ss 59
     && in_range 0 us 999999
  then Ok (mkDatetime y m d hh mi ss us tz)
  else Raise ValueError.

(** Proleptic Gregorian date of the day [z] days after 1970-01-01. *)
Definition civil_from_days (z : Z) : Z * Z * Z :=
  let z := z + 719468 in
  let era := z / 146097 in
  let doe := z - era * 146097 in
  let yoe := (doe - doe / 1460 + doe / 36524 - doe / 146096) / 365 in
  let y := yoe + era * 400 in
  let doy := doe - (365 * yoe + yoe / 4 - yoe / 100) in
  let mp := (5 * doy + 2) / 153 in
  let d := doy - (153 * mp + 2) / 5 + 1 in
  let m := if mp <? 10 then mp + 3 else mp - 9 in
  (if m <=? 2 then y + 1 else y, m, d).

(** The UTC date and time [sec] seconds and [us] microseconds after the
    epoch, time zone UTC. *)
Definition utc_from_epoch (sec us : Z) : result datetime :=
  let days := sec / 86400 in
  let rem := sec mod 86400 in
  let '(y, m, d) := civil_from_days days in
  datetime_new y m d (rem / 3600) (rem mod 3600 / 60) (rem mod 60) us (Some 0).

(** [datetime.fromtimestamp(n, tz=timezone.utc)] for an [int]. *)
Definition fromtimestamp_int (n : Z) : result datetime :=
  utc_from_epoch n 0.

(** [datetime.fromtimestamp(f, tz=timezone.utc)] for a [float]: the
    fraction is rounded to microseconds, ties to even. *)
Definition fromtimestamp_float (f : float) : result datetime :=
  match trunc_float f with
  | None => Raise (if is_nan f then ValueError else OverflowError)
  | Some ip =>
      let frac := PrimFloat.sub f (Z2float ip) in
      match round_half_even (PrimFloat.mul frac 1000000%float) with
      | None => Raise ValueError
      | Some us =>
          if 1000000 <=? us then utc_from_epoch (ip + 1) (us - 1000000)
          else if us <? 0 then utc_from_epoch (ip - 1) (us + 1000000)
          else utc_from_epoch ip us
      end
  end.

(** What follows the seconds: nothing, or [.fff] or [.ffffff]; the value
    in microseconds. *)
Definition parse_fraction (s : string) : option Z :=
  match s with
  | EmptyString => Some 0
  | String c r =>
      if is_char c "." then
        match parse_digits (String.length r) 0 r with
        | Some (v, _) =>
            if (String.length r =? 3)%nat then Some (v * 1000)
            else if (String.length r =? 6)%nat then Some v
            else None
        | None => None
        end
      else None
  end.

(** [HH[:MM[:SS[.fff[fff]]]]] *)
Definition parse_hh_mm_ss_ff (s : string) : option (Z * Z * Z * Z) :=
  match parse_digits 2 0 s with
  | None => None
  | Some (hh, EmptyString) => Some (hh, 0, 0, 0)
  | Some (hh, String c1 r1) =>
      if negb (is_char c1 ":") then None else
      match parse_digits 2 0 r1 with
      | None => None
      | Some (mi, EmptyString) => Some (hh, mi, 0, 0)
      | Some (mi, String c2 r2) =>
          if negb (is_char c2 ":") then None else
          match parse_digits 2 0 r2 with
          | None => None
          | Some (ss, r3) =>
              match parse_fraction r3 with
              | Some us => Some (hh, mi, ss, us)
              | None => None
              end
          end
      end
  end.

(** The time part split at its first ['+'] or ['-']: the time, and the
    sign and text of the offset when there is one. *)
Fixpoint split_offset (s : string) : string * option (bool * string) :=
  match s with
  | EmptyString => (EmptyString, None)
  | String c s' =>
      if is_char c "+" then (EmptyString, Some (false, s'))
      else if is_char c "-" then (EmptyString, Some (true, s'))
      else let '(t, o) := split_offset s' in (String c t, o)
  end.

Definition day_us : Z := 86400 * 1000000.

(** The time and offset of an ISO string; [timezone(offset)] wants an
    offset strictly between -24 and 24 hours. *)
Definition parse_isoformat_time (s : string)
  : option (Z * Z * Z * Z * option Z) :=
  let '(t, o) := split_offset s in
  match parse_hh_mm_ss_ff t with
  | None => None
  | Some (hh, mi, ss, us) =>
      match o with
      | None => Some (hh, mi, ss, us, None)
      | Some (neg, tzs) =>
          let n := String.length tzs in
          if negb ((n =? 5) || (n =? 8) || (n =? 15))%nat then None else
          match parse_hh_mm_ss_ff tzs with
          | None => None
          | Some (th, tm, ts, tu) =>
              let off := ((th * 3600 + tm * 60 + ts) * 1000000 + tu) in
              let off := if neg then - off else off in
              if (- day_us <? off) && (off <? day_us)
              then Some (hh, mi, ss, us, Some off)
              else None
          end
      end
  end.

(** [YYYY-MM-DD], exactly. *)
Definition parse_isoformat_date (s : string) : option (Z * Z * Z) :=
  match parse_digits 4 0 s with
  | Some (y, String c1 r1) =>
      if negb (is_char c1 "-") then None else
      match parse_digits 2 0 r1 with
      | Some (m, String c2 r2) =>
          if negb (is_char c2 "-") then None else
          match parse_digits 2 0 r2 with
          | Some (d, EmptyString) => Some (y, m, d)
          | _ => None
          end
      | _ => None
      end
  | _ => None
  end.

(** [datetime.fromisoformat(s)] *)
Definition fromisoformat (s : string) : result datetime :=
  let dstr := substring 0 10 s in
  let tstr := substring 11 (String.length s) s in
  match parse_isoformat_date dstr with
  | None => Raise ValueError
  | Some (y, m, d) =>
      match tstr with
      | EmptyString => datetime_new y m d 0 0 0 0 None
      | _ =>
          match parse_isoformat_time tstr with
          | None => Raise ValueError
          | Some (hh, mi, ss, us, tz) => datetime_new y m d hh mi ss us tz
          end
      end
  end.

(** [dt.date().isoformat()] *)
Definition date_isoformat (dt : datetime) : string :=
  fixed_digits 4 (year dt)
    (String "-" (fixed_digits 2 (month dt)
       (String "-" (fixed_digits 2 (day dt) EmptyString)))).

(* ------------------------------------------------------------------ *)
(** ** [parse_ts] *)

Definition ms_threshold : Z := 10 ^ 12.

(** [ts / 1000.0] for an [int]. *)
Definition int_div_1000 (n : Z) : result float :=
  f <- float_of_Z n ;; Ok (PrimFloat.div f 1000%float).

(** [parse_ts]: a number is an epoch time, in milliseconds when it is
    greater than 1e12 and in seconds otherwise; a string is an ISO date,
    tried whole and then cut at its first ['.']; anything else raises. *)
Definition parse_ts (ts : json) : result datetime :=
  match ts with
  | JBool b => fromtimestamp_int (Z_of_bool b)
  | JInt n =>
      if ms_threshold <? n
      then f <- int_div_1000 n ;; fromtimestamp_float f
      else fromtimestamp_int n
  | JFloat f =>
      if PrimFloat.ltb 1e12%float f
      then fromtimestamp_float (PrimFloat.div f 1000%float)
      else fromtimestamp_float f
  | JStr s =>
      match fromisoformat (replace_Z s) with
      | Ok dt => Ok dt
      | Raise _ =>
          match fromisoformat (replace_Z (split_dot_head s)) with
          | Ok dt => Ok dt
          | Raise _ => Raise ValueError
          end
      end
  | JNull | JList _ | JObj _ => Raise ValueError
  end.

(* ------------------------------------------------------------------ *)
(** ** Field readers *)

(** [k in rec], for a string [k]. An object whose text repeats a key
    keeps one binding after [json.load]; [members] lists each key once. *)
Definition contains (rec : json) (k : string) : result bool :=
  match rec with
  | JObj members => Ok (existsb (fun kv => String.eqb (fst kv) k) members)
  | JList items =>
      Ok (existsb (fun v => match v with
                            | JStr s => String.eqb s k
                            | _ => false
                            end) items)
  | JStr s => Ok (str_contains k s)
  | JNull | JBool _ | JInt _ | JFloat _ => Raise TypeError
  end.

(** [rec[k]], for a string [k]. *)
Definition getitem (rec : json) (k : string) : result json :=
  match rec with
  | JObj members =>
      match find (fun kv => String.eqb (fst kv) k) members with
      | Some kv => Ok (snd kv)
      | None => Raise KeyError
      end
  | _ => Raise TypeError
  end.

(** [for k in keys: if k in rec: return rec[k]] *)
Fixpoint probe (keys : list string) (rec : json) : result (option json) :=
  match keys with
  | [] => Ok None
  | k :: keys' =>
      b <- contains rec k ;;
      if b then v <- getitem rec k ;; Ok (Some v) else probe keys' rec
  end.

Definition site_keys : list string := ["site_id"; "siteID"; "site"; "SITE_ID"; "id"].
Definition counts_keys : list string := ["counts"; "count"; "COUNT"; "value"].
Definition timestamp_keys : list string :=
  ["timestamp"; "Timestamp"; "TIMESTAMP"; "date"; "DATE"].

Definition get_site_id (rec : json) : result json :=
  r <- probe site_keys rec ;;
  match r with
  | Some v => Ok v
  | None => Raise KeyError
  end.

(** Python's [None] and JSON's [null] are the same value, [JNull]. *)
Definition get_counts (rec : json) : result json :=
  r <- probe counts_keys rec ;;
  match r with
  | Some v => Ok v
  | None => Ok JNull
  end.

Definition get_timestamp (rec : json) : result json :=
  r <- probe timestamp_keys rec ;;
  match r with
  | Some v => Ok v
  | None => Raise KeyError
  end.

(* ------------------------------------------------------------------ *)
(** ** The month filter *)

(** [isinstance(v, (int, float))]: [bool] is a subclass of [int]. *)
Definition is_int_or_float (v : json) : bool :=
  match v with
  | JBool _ | JInt _ | JFloat _ => true
  | _ => false
  end.

(** [v <= 0] for a number. *)
Definition le_zero (v : json) : bool :=
  match v with
  | JBool b => Z_of_bool b <=? 0
  | JInt n => n <=? 0
  | JFloat f => PrimFloat.leb f 0%float
  | _ => false
  end.

Definition is_none (v : json) : bool :=
  match v with
  | JNull => true
  | _ => false
  end.

(** [cnt is None or not isinstance(cnt, (int, float)) or cnt <= 0] *)
Definition bad_count (cnt : json) : bool :=
  is_none cnt || negb (is_int_or_float cnt) || le_zero cnt.

(** [float(cnt)] *)
Definition to_float (v : json) : result float :=
  match v with
  | JBool b => Ok (Z2float (Z_of_bool b))
  | JInt n => float_of_Z n
  | JFloat f => Ok f
  | _ => Raise TypeError
  end.

(** A normalized sample: (site_id, date_str, cnt). *)
Definition sample : Type := json * string * float.

(** The body of the [try] in the filtering loop: [Ok None] is [continue],
    [Ok (Some s)] is [filtered.append(s)]. *)
Definition normalize (req_year req_month : Z) (rec : json)
  : result (option sample) :=
  cnt <- get_counts rec ;;
  if bad_count cnt then Ok None else
  ts <- get_timestamp rec ;;
  dt <- parse_ts ts ;;
  if negb (year dt =? req_year) || negb (month dt =? req_month) then Ok None else
  site_id <- get_site_id rec ;;
  c <- to_float cnt ;;
  Ok (Some (site_id, date_isoformat dt, c)).

(** One turn of the loop: an exception skips the record. *)
Definition accepted (req_year req_month : Z) (rec : json) : option sample :=
  match normalize req_year req_month rec with
  | Ok (Some s) => Some s
  | Ok None | Raise _ => None
  end.

Fixpoint filtered (data : list json) (req_year req_month : Z) : list sample :=
  match data with
  | [] => []
  | rec :: data' =>
      match accepted req_year req_month rec with
      | Some s => s :: filtered data' req_year req_month
      | None => filtered data' req_year req_month
      end
  end.

(* ------------------------------------------------------------------ *)
(** ** Dictionaries: association lists in insertion order *)

Section Dict.
Variables K V : Type.
Variable eqb : K -> K -> bool.

Fixpoint dict_get (d : list (K * V)) (k : K) : option V :=
  match d with
  | [] => None
  | (k', v) :: d' => if eqb k' k then Some v else dict_get d' k
  end.

(** [d[k] = v]: the stored key stays, a new key goes to the end. *)
Fixpoint dict_set (d : list (K * V)) (k : K) (v : V) : list (K * V) :=
  match d with
  | [] => [(k, v)]
  | (k', v') :: d' =>
      if eqb k' k then (k', v) :: d' else (k', v') :: dict_set d' k v
  end.

(** [d[k]] on a [defaultdict] whose factory gives [dflt]. *)
Definition dict_get_default (dflt : V) (d : list (K * V)) (k : K) : V :=
  match dict_get d k with
  | Some v => v
  | None => dflt
  end.
End Dict.

(** The grouping key (site_id, date_str). *)
Definition key : Type := json * string.

(** Lists and dictionaries have no hash. *)
Definition hashable (v : json) : bool :=
  match v with
  | JList _ | JObj _ => false
  | _ => true
  end.

(** [a == b] on hashable values. *)
Definition site_eqb (a b : json) : bool :=
  match a, b with
  | JNull, JNull => true
  | JStr s, JStr t => String.eqb s t
  | _, _ =>
      match py_number a, py_number b with
      | Some x, Some y => num_eqb x y
      | _, _ => false
      end
  end.

Definition key_eqb (k1 k2 : key) : bool :=
  site_eqb (fst k1) (fst k2) && String.eqb (snd k1) (snd k2).

(* ------------------------------------------------------------------ *)
(** ** Stage 1: totals and hours per (site, day) *)

Definition totals_t : Type := list (key * float).
Definition hours_t : Type := list (key * Z).

(** [totals[key] += cnt; hours[key] += 1]; a key that cannot be hashed
    raises [TypeError], outside any [try]. *)
Definition accumulate (st : totals_t * hours_t) (s : sample)
  : result (totals_t * hours_t) :=
  let '(totals, hours) := st in
  let '(site_id, date_str, cnt) := s in
  let k := (site_id, date_str) in
  if hashable site_id then
    Ok (dict_set key_eqb totals k
          (PrimFloat.add (dict_get_default key_eqb 0%float totals k) cnt),
        dict_set key_eqb hours k (dict_get_default key_eqb 0 hours k + 1))
  else Raise TypeError.

Fixpoint stage1 (samples : list sample) (st : totals_t * hours_t)
  : result (totals_t * hours_t) :=
  match samples with
  | [] => Ok st
  | s :: samples' => st' <- accumulate st s ;; stage1 samples' st'
  end.

(** [totals[key] / h] under the guard [h > 0]. *)
Definition site_day_avg (totals : totals_t) (hours : hours_t) (k : key)
  : list float :=
  let h := dict_get_default key_eqb 0 hours k in
  if 0 <? h
  then [PrimFloat.div (dict_get_default key_eqb 0%float totals k) (Z2float h)]
  else [].

Definition site_day_avgs (totals : totals_t) (hours : hours_t) : list float :=
  flat_map (site_day_avg totals hours) (map fst totals).

(* ------------------------------------------------------------------ *)
(** ** Stage 2: the mean across sites per day *)

(** [x / h] for a float and an int. *)
Definition true_div (x : float) (h : Z) : result float :=
  if h =? 0 then Raise ZeroDivisionError
  else Ok (PrimFloat.div x (Z2float h)).

Definition days_t : Type := list (string * list float).

Fixpoint day_to_site_avgs (keys : list key) (totals : totals_t)
  (hours : hours_t) (acc : days_t) : result days_t :=
  match keys with
  | [] => Ok acc
  | k :: keys' =>
      avg <- true_div (dict_get_default key_eqb 0%float totals k)
                      (dict_get_default key_eqb 0 hours k) ;;
      day_to_site_avgs keys' totals hours
        (dict_set String.eqb acc (snd k)
           (dict_get_default String.eqb [] acc (snd k) ++ [avg])%list)
  end.

(** [sorted] on strings. *)
Fixpoint insert_sorted (s : string) (l : list string) : list string :=
  match l with
  | [] => [s]
  | t :: l' => if String.leb s t then s :: l else t :: insert_sorted s l'
  end.

Definition sorted (l : list string) : list string :=
  fold_right insert_sorted [] l.

(** *** [statistics.mean]

    The values are summed exactly, as fractions, and the quotient by their
    number is rounded once. When a value is not finite the sum is the
    float sum of the values that are not finite. *)

(** A finite float is [n * 2^e]. *)
Definition float_parts (f : float) : option (Z * Z) :=
  match Prim2SF f with
  | S754_zero _ => Some (0, 0)
  | S754_finite s m e => Some (if s then Zneg m else Zpos m, e)
  | S754_infinity _ | S754_nan => None
  end.

Definition add_parts (a b : Z * Z) : Z * Z :=
  let e := Z.min (snd a) (snd b) in
  (fst a * 2 ^ (snd a - e) + fst b * 2 ^ (snd b - e), e).

Fixpoint exact_sum (l : list float) (acc : Z * Z) : Z * Z :=
  match l with
  | [] => acc
  | f :: l' =>
      match float_parts f with
      | Some p => exact_sum l' (add_parts acc p)
      | None => exact_sum l' acc
      end
  end.

Fixpoint nonfinite_sum (l : list float) (acc : option float) : option float :=
  match l with
  | [] => acc
  | f :: l' =>
      if is_finite f then nonfinite_sum l' acc
      else nonfinite_sum l'
             (Some match acc with
                   | None => f
                   | Some t => PrimFloat.add t f
                   end)
  end.

(** The fraction [num * 2^e / n] rounded to the nearest float. *)
Definition round_quotient (num e : Z) (n : positive) : float :=
  match num with
  | Z0 => 0%float
  | Zpos m => SF2Prim (SFdiv prec emax (S754_finite false m e) (S754_finite false n 0))
  | Zneg m => SF2Prim (SFdiv prec emax (S754_finite true m e) (S754_finite false n 0))
  end.

Definition mean (l : list float) : result float :=
  match l with
  | [] => Raise StatisticsError
  | _ =>
      let n := Z.of_nat (List.length l) in
      match nonfinite_sum l None with
      | Some total => Ok (PrimFloat.div total (Z2float n))
      | None =>
          let '(num, e) := exact_sum l (0, 0) in
          Ok (round_quotient num e (Z.to_pos n))
      end
  end.

(* ------------------------------------------------------------------ *)
(** ** [main] *)

(** What the run writes. [PrintStats year month avgs] stands for the five
    summary lines (the month label, the number of site-days, the mean,
    the median and the extremes of [avgs]); [SaveFig out xs ys] for the
    chart of [ys] against [xs] saved as [out]. *)
Inductive event : Type :=
| Print (line : string)
| PrintStats (req_year req_month : Z) (avgs : list float)
| SaveFig (out : string) (x_values : list Z) (y_values : list float).

Definition no_data_notice : string :=
  "No site-day averages found for the specified month.".

Definition str_of_Z (z : Z) : string := NilZero.string_of_int (Z.to_int z).

Definition chart_name (req_year req_month : Z) : string :=
  "daily_avg_hourly_across_sites_" ++ str_of_Z req_year ++ "_"
    ++ str_of_Z req_month ++ ".png".

(** [sorted(day_to_site_avgs.keys())] *)
Definition sorted_days (days : days_t) : list string := sorted (map fst days).

(** [[mean(day_to_site_avgs[d]) for d in sorted_days]] *)
Definition y_values (days : days_t) : result (list float) :=
  mapM (fun d => mean (dict_get_default String.eqb [] days d)) (sorted_days days).

(** [[int(d.split('-')[-1]) for d in sorted_days]] *)
Definition x_values (days : days_t) : result (list Z) :=
  mapM (fun d => int_of_string (split_dash_last d)) (sorted_days days).

(** [main] once the arguments are read: [data] is the decoded array,
    [req_year] and [req_month] the two integers. [Raise e] is a run ended
    by the exception [e]. *)
Definition main (data : list json) (req_year req_month : Z)
  : result (list event) :=
  st <- stage1 (filtered data req_year req_month) ([], []) ;;
  let '(totals, hours) := st in
  match site_day_avgs totals hours with
  | [] => Ok [Print no_data_notice]
  | avgs =>
      days <- day_to_site_avgs (map fst hours) totals hours [] ;;
      ys <- y_values days ;;
      xs <- x_values days ;;
      let out := chart_name req_year req_month in
      Ok [PrintStats req_year req_month avgs;
          SaveFig out xs ys;
          Print ("Saved line chart to " ++ out)]
  end.

(** The scenario of the specification: two samples of site A and one of
    site B on 2022-07-01. *)
Definition rec3 (site ts : string) (c : json) : json :=
  JObj [("site_id", JStr site); ("timestamp", JStr ts); ("count", c)].

Definition scenario : list json :=
  [rec3 "A" "2022-07-01T00:00:00Z" (JInt 10);
   rec3 "A" "2022-07-01T01:00:00Z" (JInt 20);
   rec3 "B" "2022-07-01T00:00:00Z" (JInt 100)].

(* ------------------------------------------------------------------ *)
(** ** Vocabulary of the statements *)

Definition is_ok {A : Type} (r : result A) : bool :=
  match r with
  | Ok _ => true
  | Raise _ => false
  end.

Definition valid_datetime (dt : datetime) : Prop :=
  1 <= year dt <= 9999 /\ 1 <= month dt <= 12 /\ 1 <= day dt <= 31.

Definition instant_2023_11_14 : datetime :=
  mkDatetime 2023 11 14 22 13 20 0 (Some 0).

(** The day number (days after 1970-01-01) of a proleptic Gregorian
    date, and the seconds after the epoch of a UTC date and time: the
    reading of a [datetime] as an instant. *)
Definition days_from_civil (y m d : Z) : Z :=
  let y' := if m <=? 2 then y - 1 else y in
  let era := y' / 400 in
  let yoe := y' - era * 400 in
  let mp := if 2 <? m then m - 3 else m + 9 in
  let doy := (153 * mp + 2) / 5 + d - 1 in
  let doe := yoe * 365 + yoe / 4 - yoe / 100 + doy in
  era * 146097 + doe - 719468.

Definition epoch_seconds (dt : datetime) : Z :=
  days_from_civil (year dt) (month dt) (day dt) * 86400
  + hour dt * 3600 + minute dt * 60 + second dt.

(** [seen k ks]: the dictionary whose keys are [ks] finds [k]. *)
Definition seen (k : key) (ks : list key) : bool :=
  existsb (fun k' => key_eqb k' k) ks.

(** The site-day keys of the samples, each once, in the order the samples
    first show them. *)
Definition first_keys (l : list sample) : list key :=
  fold_left (fun acc s => if seen (fst s) acc then acc else (acc ++ [fst s])%list)
            l [].

(** The counts of the samples of one site-day, in the order of the input. *)
Definition samples_of (k : key) (l : list sample) : list float :=
  map snd (filter (fun s => key_eqb k (fst s)) l).

(** The running sum of the loop: float additions from 0.0, left to right. *)
Definition fsum (l : list float) : float := fold_left PrimFloat.add l 0%float.

(** sum(counts) / n for the samples of one site-day. *)
Definition mean_of_samples (l : list sample) (k : key) : float :=
  PrimFloat.div (fsum (samples_of k l))
                (Z2float (Z.of_nat (List.length (samples_of k l)))).

(** The site-day keys of one date. *)
Definition keys_of_day (d : string) (l : list sample) : list key :=
  filter (fun k => String.eqb (snd k) d) (first_keys l).

(** No two keys of the list are equal for the dictionary. *)
Fixpoint distinct (ks : list key) : Prop :=
  match ks with
  | [] => True
  | k :: ks' => (forall k', In k' ks' -> key_eqb k k' = false) /\ distinct ks'
  end.

(** Every sample has a site that can be a dictionary key. *)
Definition hashable_sites (l : list sample) : Prop :=
  Forall (fun s => hashable (fst (fst s)) = true) l.

(** What stage 1 holds once the samples [l] are read. *)
Definition stage1_inv (l : list sample) (st : totals_t * hours_t) : Prop :=
  map fst (fst st) = first_keys l /\
  map fst (snd st) = first_keys l /\
  forall k,
    dict_get key_eqb (fst st) k =
      (if seen k (first_keys l) then Some (fsum (samples_of k l)) else None) /\
    dict_get key_eqb (snd st) k =
      (if seen k (first_keys l)
       then Some (Z.of_nat (List.length (samples_of k l))) else None).

(** The loop of stage 2 when no division fails: [f] gives the average of a
    key. *)
Fixpoint group_days (f : key -> float) (keys : list key) (acc : days_t) : days_t :=
  match keys with
  | [] => acc
  | k :: keys' =>
      group_days f keys'
        (dict_set String.eqb acc (snd k)
           (dict_get_default String.eqb [] acc (snd k) ++ [f k])%list)
  end.

(** Three samples of one day whose sites read alike: the string "1", the
    integer 1 and the float 1.0. *)
Definition mixed_sites : list sample :=
  [(JStr "1", "2022-07-01", 10%float); (JInt 1, "2022-07-01", 20%float);
   (JFloat 1%float, "2022-07-01", 40%float)].

(** *** Vocabulary of the further properties *)

(** A record whose site is a list: accepted by the filter, refused by the
    dictionary. *)
Definition list_site_data : list json :=
  [JObj [("site_id", JList [JInt 1]); ("timestamp", JStr "2022-07-01T00:00:00Z");
         ("count", JInt 5)]].

(** The keys the field readers look for. *)
Definition recognized (k : string) : bool :=
  existsb (String.eqb k) (site_keys ++ counts_keys ++ timestamp_keys)%list.

(** [k in members], and [members[k]]. *)
Definition has_key (members : list (string * json)) (k : string) : bool :=
  existsb (fun kv => String.eqb (fst kv) k) members.

Definition value_of (members : list (string * json)) (k : string) : option json :=
  option_map snd (find (fun kv => String.eqb (fst kv) k) members).

Definition is_object (v : json) : bool :=
  match v with
  | JObj _ => true
  | _ => false
  end.

(** Every field of the date and time is in its range, the day within its
    month. *)
Definition well_formed (dt : datetime) : Prop :=
  1 <= year dt <= 9999 /\ 1 <= month dt <= 12
  /\ 1 <= day dt <= days_in_month (year dt) (month dt)
  /\ 0 <= hour dt <= 23 /\ 0 <= minute dt <= 59 /\ 0 <= second dt <= 59
  /\ 0 <= microsecond dt <= 999999.

(** The midnight of a date, without time zone: what [fromisoformat] makes
    of a date alone. *)
Definition midnight (dt : datetime) : datetime :=
  mkDatetime (year dt) (month dt) (day dt) 0 0 0 0 None.

(** The first and the last second that have a date. *)
Definition min_epoch : Z := -62135596800.
Definition max_epoch : Z := 253402300799.

(** The number of samples counted, and the number of averages filed under
    the days. *)
Definition total_hours (hours : hours_t) : Z :=
  fold_right Z.add 0 (map snd hours).

Definition total_values (days : days_t) : nat :=
  fold_right Nat.add O (map (fun dv => List.length (snd dv)) days).

(** Ascending lists: of strings for [String.leb], of integers strictly. *)
Fixpoint ascending (l : list string) : Prop :=
  match l with
  | [] => True
  | a :: l' =>
      match l' with
      | [] => True
      | b :: _ => String.leb a b = true /\ ascending l'
      end
  end.

Fixpoint increasing (l : list Z) : Prop :=
  match l with
  | [] => True
  | a :: l' =>
      match l' with
      | [] => True
      | b :: _ => a < b /\ increasing l'
      end
  end.

(** The cases that enumerate two-digit numbers. *)
Definition two_digits (z : Z) : string := fixed_digits 2 z EmptyString.

Definition two_digit_order_ok (a b : Z) : bool :=
  implb (String.leb (two_digits a) (two_digits b)) (a <=? b).

Definition below_100 : list Z := map Z.of_nat (seq 0 100).

(* ------------------------------------------------------------------ *)
(** * Properties *)

Example scenario_run :
  main scenario 2022 7 =
  Ok [PrintStats 2022 7 [15%float; 100%float];
      SaveFig "daily_avg_hourly_across_sites_2022_7.png" [1] [57.5%float];
      Print "Saved line chart to daily_avg_hourly_across_sites_2022_7.png"].
Proof. vm_compute. reflexivity. Qed.


(** ** Every parsed timestamp is a valid date *)

Lemma days_in_month_le (y m : Z) : days_in_month y m <= 31.
Proof.
  unfold days_in_month.
  destruct (m =? 2); [destruct (is_leap y); lia|].
  destruct ((m =? 4) || (m =? 6) || (m =? 9) || (m =? 11)); lia.
Qed.

Lemma in_range_spec (lo x hi : Z) : in_range lo x hi = true <-> lo <= x <= hi.
Proof. unfold in_range. rewrite andb_true_iff, !Z.leb_le. tauto. Qed.

Lemma datetime_new_valid y m d hh mi ss us tz dt :
  datetime_new y m d hh mi ss us tz = Ok dt -> valid_datetime dt.
Proof.
  unfold datetime_new.
  destruct (in_range 1 y 9999 && in_range 1 m 12
            && in_range 1 d (days_in_month y m)
            && in_range 0 hh 23 && in_range 0 mi 59 && in_range 0 ss 59
            && in_range 0 us 999999) eqn:H; [|discriminate].
  intros [= <-]. rewrite !andb_true_iff, !in_range_spec in H.
  pose proof (days_in_month_le y m). unfold valid_datetime; simpl. lia.
Qed.

Lemma utc_from_epoch_valid sec us dt :
  utc_from_epoch sec us = Ok dt -> valid_datetime dt.
Proof.
  unfold utc_from_epoch. destruct (civil_from_days (sec / 86400)) as [[y m] d].
  apply datetime_new_valid.
Qed.

Lemma fromtimestamp_float_valid f dt :
  fromtimestamp_float f = Ok dt -> valid_datetime dt.
Proof.
  unfold fromtimestamp_float.
  destruct (trunc_float f) as [ip|]; [|discriminate].
  destruct (round_half_even _) as [us|]; [|discriminate].
  destruct (1000000 <=? us); [apply utc_from_epoch_valid|].
  destruct (us <? 0); apply utc_from_epoch_valid.
Qed.

Lemma fromisoformat_valid s dt : fromisoformat s = Ok dt -> valid_datetime dt.
Proof.
  unfold fromisoformat.
  destruct (parse_isoformat_date _) as [[[y m] d]|]; [|discriminate].
  destruct (substring 11 _ s); [apply datetime_new_valid|].
  destruct (parse_isoformat_time _) as [[[[[hh mi] ss] us] tz]|]; [|discriminate].
  apply datetime_new_valid.
Qed.

Lemma parse_ts_valid ts dt : parse_ts ts = Ok dt -> valid_datetime dt.
Proof.
  destruct ts as [|b|n|f|s|l|o]; cbn [parse_ts]; try discriminate.
  - unfold fromtimestamp_int. apply utc_from_epoch_valid.
  - destruct (ms_threshold <? n).
    + unfold int_div_1000. destruct (float_of_Z n); cbn [bind]; [|discriminate].
      apply fromtimestamp_float_valid.
    + unfold fromtimestamp_int. apply utc_from_epoch_valid.
  - destruct (PrimFloat.ltb _ f); apply fromtimestamp_float_valid.
  - destruct (fromisoformat (replace_Z s)) eqn:H1.
    + intros [= <-]. eapply fromisoformat_valid; eauto.
    + destruct (fromisoformat (replace_Z (split_dot_head s))) eqn:H2; [|discriminate].
      intros [= <-]. eapply fromisoformat_valid; eauto.
Qed.

(** ** The filtering loop *)

(** What an accepted record went through. *)
Lemma accepted_inv y m rec s :
  accepted y m rec = Some s ->
  exists cnt ts dt site c,
    get_counts rec = Ok cnt /\ bad_count cnt = false /\
    get_timestamp rec = Ok ts /\ parse_ts ts = Ok dt /\
    year dt = y /\ month dt = m /\
    get_site_id rec = Ok site /\ to_float cnt = Ok c /\
    s = (site, date_isoformat dt, c).
Proof.
  unfold accepted, normalize.
  destruct (get_counts rec) as [cnt|] eqn:Hc; simpl; [|discriminate].
  destruct (bad_count cnt) eqn:Hb; [discriminate|].
  destruct (get_timestamp rec) as [ts|] eqn:Ht; simpl; [|discriminate].
  destruct (parse_ts ts) as [dt|] eqn:Hp; simpl; [|discriminate].
  destruct (year dt =? y) eqn:Hy; simpl; [|discriminate].
  destruct (month dt =? m) eqn:Hm; simpl; [|discriminate].
  destruct (get_site_id rec) as [site|] eqn:Hs; simpl; [|discriminate].
  destruct (to_float cnt) as [c|] eqn:Hf; simpl; [|discriminate].
  intros [= <-]. apply Z.eqb_eq in Hy, Hm.
  exists cnt, ts, dt, site, c. repeat split; auto.
Qed.

Lemma in_filtered data y m s :
  In s (filtered data y m) <-> exists rec, In rec data /\ accepted y m rec = Some s.
Proof.
  induction data as [|rec data IH]; simpl.
  - split; [tauto | intros (r & [] & _)].
  - destruct (accepted y m rec) as [s'|] eqn:Ha; simpl; rewrite ?IH; split.
    + intros [<-|(r & Hr & Hs)]; eauto.
    + intros (r & [<-|Hr] & Hs); [left; congruence | right; eauto].
    + intros (r & Hr & Hs); eauto.
    + intros (r & [<-|Hr] & Hs); [congruence | eauto].
Qed.

Lemma filtered_nil data y m :
  (forall rec, In rec data -> accepted y m rec = None) -> filtered data y m = [].
Proof.
  induction data as [|rec data IH]; simpl; intros H; [reflexivity|].
  rewrite (H rec (or_introl eq_refl)). apply IH. intros r Hr. apply H. now right.
Qed.

(** ** The count check *)

(** C3, as the code has it: a record is rejected when none of the count
    keys is present, when the value found is not an [int] or a [float]
    (a JSON [null], string, array or object), or when it is a number at
    most 0. *)
Theorem count_check_rejects (y m : Z) (rec : json) :
  probe counts_keys rec = Ok None \/
  (exists cnt, probe counts_keys rec = Ok (Some cnt) /\
               (is_int_or_float cnt = false \/ le_zero cnt = true)) ->
  accepted y m rec = None.
Proof.
  intros H. unfold accepted, normalize, get_counts.
  destruct H as [-> | (cnt & -> & H)]; simpl; [reflexivity|].
  unfold bad_count. destruct H as [-> | ->];
    rewrite ?orb_true_r; reflexivity.
Qed.

Lemma count_check_rejects_witness :
  accepted 2022 7 (JObj [("site_id", JStr "A");
                         ("timestamp", JStr "2022-07-01T00:00:00Z")]) = None
  /\ accepted 2022 7 (rec3 "A" "2022-07-01T00:00:00Z" (JInt 0)) = None
  /\ accepted 2022 7 (rec3 "A" "2022-07-01T00:00:00Z" (JInt (-5))) = None
  /\ accepted 2022 7 (rec3 "A" "2022-07-01T00:00:00Z" (JStr "10")) = None.
Proof.
  split; [|split; [|split]]; apply count_check_rejects.
  - left. reflexivity.
  - right. exists (JInt 0). split; [reflexivity | right; reflexivity].
  - right. exists (JInt (-5)). split; [reflexivity | right; reflexivity].
  - right. exists (JStr "10"). split; [reflexivity | left; reflexivity].
Defined.

(** C3 as stated fails: a count that is not a finite number passes the
    check. The JSON number [1e999] decodes to the float infinity, the
    token [NaN] to nan, and [true] is an [int]; the three records are
    accepted. *)
Lemma nonfinite_count_accepted :
  accepted 2022 7 (rec3 "A" "2022-07-01T00:00:00Z" (JFloat infinity))
    = Some (JStr "A", "2022-07-01", infinity)
  /\ accepted 2022 7 (rec3 "A" "2022-07-01T00:00:00Z" (JFloat nan))
    = Some (JStr "A", "2022-07-01", nan)
  /\ accepted 2022 7 (rec3 "A" "2022-07-01T00:00:00Z" (JBool true))
    = Some (JStr "A", "2022-07-01", 1%float).
Proof. repeat split; vm_compute; reflexivity. Qed.

(** ** Numeric timestamps *)

Lemma civil_roundtrip (z : Z) :
  let '(y, m, d) := civil_from_days z in days_from_civil y m d = z.
Proof.
  unfold civil_from_days, days_from_civil. cbv zeta.
  set (z' := z + 719468).
  set (era := z' / 146097).
  set (doe := z' - era * 146097).
  assert (Hdoe : 0 <= doe < 146097) by (unfold doe, era; Z.div_mod_to_equations; lia).
  set (yoe := (doe - doe / 1460 + doe / 36524 - doe / 146096) / 365).
  assert (Hyoe : 0 <= yoe <= 399) by (unfold yoe; Z.div_mod_to_equations; lia).
  set (doy := doe - (365 * yoe + yoe / 4 - yoe / 100)).
  assert (Hdoy : 0 <= doy <= 365) by (unfold doy, yoe; Z.div_mod_to_equations; lia).
  set (mp := (5 * doy + 2) / 153).
  assert (Hmp : 0 <= mp <= 11) by (unfold mp; Z.div_mod_to_equations; lia).
  destruct (mp <? 10) eqn:E.
  - apply Z.ltb_lt in E.
    replace (mp + 3 <=? 2) with false by (symmetry; apply Z.leb_gt; lia).
    replace (2 <? mp + 3) with true by (symmetry; apply Z.ltb_lt; lia).
    replace ((yoe + era * 400) / 400) with era by (Z.div_mod_to_equations; lia).
    replace (yoe + era * 400 - era * 400) with yoe by lia.
    replace (mp + 3 - 3) with mp by lia.
    unfold doy, doe, z'. lia.
  - apply Z.ltb_ge in E.
    replace (mp - 9 <=? 2) with true by (symmetry; apply Z.leb_le; lia).
    replace (2 <? mp - 9) with false by (symmetry; apply Z.ltb_ge; lia).
    replace (yoe + era * 400 + 1 - 1) with (yoe + era * 400) by lia.
    replace ((yoe + era * 400) / 400) with era by (Z.div_mod_to_equations; lia).
    replace (yoe + era * 400 - era * 400) with yoe by lia.
    replace (mp - 9 + 9) with mp by lia.
    unfold doy, doe, z'. lia.
Qed.

(** A date and time made from [sec] seconds after the epoch reads back as
    [sec], with the microseconds given, in UTC. *)
Lemma utc_from_epoch_instant sec us dt :
  utc_from_epoch sec us = Ok dt ->
  epoch_seconds dt = sec /\ microsecond dt = us /\ tzinfo dt = Some 0.
Proof.
  unfold utc_from_epoch. pose proof (civil_roundtrip (sec / 86400)) as R.
  destruct (civil_from_days (sec / 86400)) as [[y m] d].
  unfold datetime_new. destruct (_ && _); [|discriminate]. intros [= <-].
  unfold epoch_seconds. simpl. rewrite R.
  split; [|split; reflexivity]. Z.div_mod_to_equations. lia.
Qed.

Lemma fromtimestamp_float_utc f dt :
  fromtimestamp_float f = Ok dt -> tzinfo dt = Some 0.
Proof.
  unfold fromtimestamp_float.
  destruct (trunc_float f) as [ip|]; [|discriminate].
  destruct (round_half_even _) as [us|]; [|discriminate].
  destruct (1000000 <=? us); [|destruct (us <? 0)];
    intros H; exact (proj2 (proj2 (utc_from_epoch_instant _ _ H))).
Qed.

(** C4, as the code has it: a number greater than 10^12 (a signed
    comparison) is divided by 1000.0 and read as seconds, any other number
    is read as seconds as it is; an integer read as seconds gives the UTC
    date and time that many seconds after the epoch, and every number
    parsed is in UTC; 1700000000 and 1700000000000 are the same instant. *)
Theorem parse_ts_numeric :
  (forall n : Z,
      parse_ts (JInt n) =
      if 10 ^ 12 <? n
      then f <- int_div_1000 n ;; fromtimestamp_float f
      else fromtimestamp_int n)
  /\ (forall f : float,
      parse_ts (JFloat f) =
      if PrimFloat.ltb 1e12%float f
      then fromtimestamp_float (PrimFloat.div f 1000%float)
      else fromtimestamp_float f)
  /\ (forall n dt, n <= 10 ^ 12 -> parse_ts (JInt n) = Ok dt ->
        epoch_seconds dt = n /\ microsecond dt = 0)
  /\ (forall ts dt, is_int_or_float ts = true -> parse_ts ts = Ok dt ->
        tzinfo dt = Some 0)
  /\ parse_ts (JInt 1700000000) = Ok instant_2023_11_14
  /\ parse_ts (JInt 1700000000000) = Ok instant_2023_11_14
  /\ parse_ts (JFloat 1700000000%float) = Ok instant_2023_11_14
  /\ parse_ts (JFloat 1700000000000%float) = Ok instant_2023_11_14.
Proof.
  split; [reflexivity|]. split; [reflexivity|]. split; [|split].
  - intros n dt Hn. cbn [parse_ts]. unfold ms_threshold.
    destruct (10 ^ 12 <? n) eqn:E; [apply Z.ltb_lt in E; lia|].
    unfold fromtimestamp_int. intros H.
    destruct (utc_from_epoch_instant _ _ H) as (H1 & H2 & _). auto.
  - intros ts dt Hts. destruct ts as [|b|n|f|s|l|o]; try discriminate; cbn [parse_ts].
    + unfold fromtimestamp_int. intros H.
      exact (proj2 (proj2 (utc_from_epoch_instant _ _ H))).
    + destruct (ms_threshold <? n).
      * unfold int_div_1000. destruct (float_of_Z n); cbn [bind]; [|discriminate].
        apply fromtimestamp_float_utc.
      * unfold fromtimestamp_int. intros H.
        exact (proj2 (proj2 (utc_from_epoch_instant _ _ H))).
    + destruct (PrimFloat.ltb _ f); apply fromtimestamp_float_utc.
  - repeat split; vm_compute; reflexivity.
Qed.

Lemma parse_ts_numeric_witness :
  epoch_seconds instant_2023_11_14 = 1700000000
  /\ microsecond instant_2023_11_14 = 0
  /\ tzinfo instant_2023_11_14 = Some 0.
Proof.
  destruct parse_ts_numeric as (_ & _ & Hsec & Hutc & _).
  destruct (Hsec 1700000000 instant_2023_11_14) as [H1 H2].
  - vm_compute. discriminate.
  - vm_compute. reflexivity.
  - split; [exact H1|]. split; [exact H2|].
    apply (Hutc (JInt 1700000000)); vm_compute; reflexivity.
Defined.

(** C4 as stated fails on the magnitude: -1700000000000 exceeds 10^12 in
    magnitude, yet it is read as seconds (and no such date exists), not as
    the milliseconds of 1916-02-18. *)
Lemma negative_millis_read_as_seconds :
  10 ^ 12 < Z.abs (-1700000000000)
  /\ parse_ts (JInt (-1700000000000)) = fromtimestamp_int (-1700000000000)
  /\ parse_ts (JInt (-1700000000000)) = Raise ValueError
  /\ (f <- int_div_1000 (-1700000000000) ;; fromtimestamp_float f)
     = Ok (mkDatetime 1916 2 18 1 46 40 0 (Some 0)).
Proof. repeat split; vm_compute; reflexivity. Qed.

(** ** String timestamps *)

Lemma replace_Z_app (s t : string) : replace_Z (s ++ t) = replace_Z s ++ replace_Z t.
Proof.
  induction s as [|c s IH]; simpl; [reflexivity|].
  destruct (is_char c "Z"); simpl; now rewrite IH.
Qed.

(** C5: a string goes to [fromisoformat] with its [Z] written [+00:00];
    when that fails the text before the first [.] is tried the same way;
    when both fail [parse_ts] raises and the record is skipped. The two
    strings of the specification give 2022-07-15. *)
Theorem parse_ts_string (s : string) :
  (forall dt, fromisoformat (replace_Z s) = Ok dt -> parse_ts (JStr s) = Ok dt)
  /\ (is_ok (fromisoformat (replace_Z s)) = false ->
      forall dt, fromisoformat (replace_Z (split_dot_head s)) = Ok dt ->
                 parse_ts (JStr s) = Ok dt)
  /\ (is_ok (fromisoformat (replace_Z s)) = false ->
      is_ok (fromisoformat (replace_Z (split_dot_head s))) = false ->
      parse_ts (JStr s) = Raise ValueError
      /\ forall y m rec, get_counts rec = Ok (JInt 1) ->
                         get_timestamp rec = Ok (JStr s) ->
                         accepted y m rec = None)
  /\ replace_Z (s ++ "Z") = replace_Z s ++ "+00:00"
  /\ parse_ts (JStr "2022-07-15T10:00:00Z")
     = Ok (mkDatetime 2022 7 15 10 0 0 0 (Some 0))
  /\ parse_ts (JStr "2022-07-15T10:00:00.123Z")
     = Ok (mkDatetime 2022 7 15 10 0 0 123000 (Some 0))
  /\ date_isoformat (mkDatetime 2022 7 15 10 0 0 0 (Some 0)) = "2022-07-15"
  /\ date_isoformat (mkDatetime 2022 7 15 10 0 0 123000 (Some 0)) = "2022-07-15".
Proof.
  split; [|split; [|split; [|split]]].
  - intros dt H. simpl. now rewrite H.
  - intros H1 dt H2. simpl.
    destruct (fromisoformat (replace_Z s)); [discriminate|]. now rewrite H2.
  - intros H1 H2.
    assert (Hp : parse_ts (JStr s) = Raise ValueError).
    { simpl. destruct (fromisoformat (replace_Z s)); [discriminate|].
      destruct (fromisoformat (replace_Z (split_dot_head s))); [discriminate|].
      reflexivity. }
    split; [exact Hp|].
    intros y m rec Hc Ht. unfold accepted, normalize.
    rewrite Hc. cbn [bind]. change (bad_count (JInt 1)) with false. cbn iota.
    rewrite Ht. cbn [bind]. rewrite Hp. reflexivity.
  - apply replace_Z_app.
  - repeat split; vm_compute; reflexivity.
Qed.

Lemma parse_ts_string_witness :
  parse_ts (JStr "2022-07-15T10:00:00.1234Z")
  = Ok (mkDatetime 2022 7 15 10 0 0 0 None)
  /\ (parse_ts (JStr "15/07/2022") = Raise ValueError
      /\ forall y m rec, get_counts rec = Ok (JInt 1) ->
                         get_timestamp rec = Ok (JStr "15/07/2022") ->
                         accepted y m rec = None).
Proof.
  split.
  - apply (proj1 (proj2 (parse_ts_string "2022-07-15T10:00:00.1234Z")));
      vm_compute; reflexivity.
  - apply (proj1 (proj2 (proj2 (parse_ts_string "15/07/2022"))));
      vm_compute; reflexivity.
Defined.

(** ** The month filter *)

(** C6: every sample kept comes from a record whose timestamp parsed to
    the requested year and month, and a record whose timestamp parses to
    another year or month is never kept. *)
Theorem month_filter (data : list json) (y m : Z) :
  (forall s, In s (filtered data y m) ->
     exists rec ts dt,
       In rec data /\ get_timestamp rec = Ok ts /\ parse_ts ts = Ok dt /\
       year dt = y /\ month dt = m /\ snd (fst s) = date_isoformat dt)
  /\ (forall rec ts dt,
        get_timestamp rec = Ok ts -> parse_ts ts = Ok dt ->
        year dt <> y \/ month dt <> m ->
        accepted y m rec = None).
Proof.
  split.
  - intros s Hs. apply in_filtered in Hs. destruct Hs as (rec & Hin & Ha).
    apply accepted_inv in Ha.
    destruct Ha as (cnt & ts & dt & site & c & _ & _ & Ht & Hp & Hy & Hm & _ & _ & ->).
    exists rec, ts, dt. simpl. auto 10.
  - intros rec ts dt Ht Hp Hne.
    destruct (accepted y m rec) as [s|] eqn:Ha; [|reflexivity].
    apply accepted_inv in Ha.
    destruct Ha as (cnt & ts' & dt' & site & c & _ & _ & Ht' & Hp' & Hy & Hm & _).
    rewrite Ht in Ht'. injection Ht' as <-. rewrite Hp in Hp'. injection Hp' as <-.
    tauto.
Qed.

Lemma month_filter_witness :
  (exists rec ts dt,
      In rec scenario /\ get_timestamp rec = Ok ts /\ parse_ts ts = Ok dt /\
      year dt = 2022 /\ month dt = 7 /\ "2022-07-01" = date_isoformat dt)
  /\ accepted 2022 8 (rec3 "A" "2022-07-01T00:00:00Z" (JInt 10)) = None.
Proof.
  split.
  - apply (proj1 (month_filter scenario 2022 7) (JStr "A", "2022-07-01", 10%float)).
    vm_compute. left. reflexivity.
  - apply (proj2 (month_filter scenario 2022 8)
             (rec3 "A" "2022-07-01T00:00:00Z" (JInt 10))
             (JStr "2022-07-01T00:00:00Z")
             (mkDatetime 2022 7 1 0 0 0 0 (Some 0))).
    + reflexivity.
    + vm_compute. reflexivity.
    + right. simpl. lia.
Defined.

(** ** The empty result *)

(** C7: when no sample is accepted the run prints the notice, and only
    that: no statistics, no chart, no exception. *)
Theorem no_samples_notice (data : list json) (y m : Z) :
  filtered data y m = [] -> main data y m = Ok [Print no_data_notice].
Proof. intros H. unfold main. rewrite H. reflexivity. Qed.

Lemma no_samples_notice_witness :
  main scenario 2021 7 = Ok [Print no_data_notice].
Proof. apply no_samples_notice. vm_compute. reflexivity. Defined.

(** C9: a month outside 1..12 matches no record, so the run ends with the
    notice and without an exception. *)
Theorem month_out_of_range (data : list json) (y m : Z) :
  m < 1 \/ 12 < m ->
  filtered data y m = [] /\ main data y m = Ok [Print no_data_notice].
Proof.
  intros Hm.
  assert (H : filtered data y m = []).
  { apply filtered_nil. intros rec _.
    destruct (accepted y m rec) as [s|] eqn:Ha; [|reflexivity].
    apply accepted_inv in Ha.
    destruct Ha as (cnt & ts & dt & site & c & _ & _ & _ & Hp & _ & Hmo & _).
    apply parse_ts_valid in Hp. destruct Hp as (_ & Hr & _). lia. }
  split; [exact H|]. unfold main. rewrite H. reflexivity.
Qed.

Lemma month_out_of_range_witness :
  filtered scenario 2022 13 = [] /\ main scenario 2022 13 = Ok [Print no_data_notice].
Proof. apply month_out_of_range. right. lia. Defined.

(* ------------------------------------------------------------------ *)
(** ** Dictionaries *)

Section DictFacts.
Variables K V : Type.
Variable eqb : K -> K -> bool.
Hypothesis eqb_sym : forall a b, eqb a b = eqb b a.
Hypothesis eqb_trans :
  forall a b c, eqb a b = true -> eqb b c = true -> eqb a c = true.

(** Two equal keys are found by the same stored keys. *)
Lemma eqb_compat a b k : eqb a b = true -> eqb k a = eqb k b.
Proof.
  intros Hab. destruct (eqb k a) eqn:Ha, (eqb k b) eqn:Hb; try reflexivity.
  - rewrite (eqb_trans Ha Hab) in Hb. discriminate.
  - rewrite eqb_sym in Hab. rewrite (eqb_trans Hb Hab) in Ha. discriminate.
Qed.

Lemma dict_get_equiv (d : list (K * V)) a b :
  eqb a b = true -> dict_get eqb d a = dict_get eqb d b.
Proof.
  intros Hab. induction d as [|[k v] d IH]; simpl; [reflexivity|].
  rewrite (eqb_compat k Hab), IH. reflexivity.
Qed.

Lemma dict_get_set_eq (d : list (K * V)) k k2 v :
  eqb k2 k = true -> dict_get eqb (dict_set eqb d k v) k2 = Some v.
Proof.
  intros H. induction d as [|[k' v'] d IH]; simpl.
  - rewrite eqb_sym, H. reflexivity.
  - destruct (eqb k' k) eqn:E; simpl.
    + rewrite eqb_sym in H. rewrite (eqb_trans E H). reflexivity.
    + destruct (eqb k' k2) eqn:E2; [|exact IH].
      rewrite (eqb_trans E2 H) in E. discriminate.
Qed.

Lemma dict_get_set_ne (d : list (K * V)) k k2 v :
  eqb k2 k = false -> dict_get eqb (dict_set eqb d k v) k2 = dict_get eqb d k2.
Proof.
  intros H. induction d as [|[k' v'] d IH]; simpl.
  - rewrite eqb_sym, H. reflexivity.
  - destruct (eqb k' k) eqn:E; simpl.
    + destruct (eqb k' k2) eqn:E2; [|reflexivity].
      rewrite eqb_sym in E2. rewrite (eqb_trans E2 E) in H. discriminate.
    + destruct (eqb k' k2); [reflexivity | exact IH].
Qed.

Lemma keys_dict_set (d : list (K * V)) k v :
  map fst (dict_set eqb d k v) =
  if existsb (fun k' => eqb k' k) (map fst d) then map fst d
  else (map fst d ++ [k])%list.
Proof.
  induction d as [|[k' v'] d IH]; simpl; [reflexivity|].
  destruct (eqb k' k); simpl; [reflexivity|].
  rewrite IH. destruct (existsb _ (map fst d)); reflexivity.
Qed.
End DictFacts.

(** *** Equality of keys *)

Lemma num_eqb_sym x y : num_eqb x y = num_eqb y x.
Proof.
  destruct x as [|a|p], y as [|b|q]; simpl; try reflexivity.
  - destruct a, b; reflexivity.
  - apply Qeq_bool_comm.
Qed.

Lemma num_eqb_trans x y z :
  num_eqb x y = true -> num_eqb y z = true -> num_eqb x z = true.
Proof.
  destruct x as [|a|p], y as [|b|q], z as [|c|r]; simpl; try discriminate; auto.
  - destruct a, b, c; simpl; auto.
  - apply Qeq_bool_trans.
Qed.

Lemma num_eqb_refl x : num_eqb x x = true.
Proof.
  destruct x as [|a|p]; simpl; [reflexivity | now destruct a | apply Qeq_bool_refl].
Qed.

Lemma site_eqb_sym a b : site_eqb a b = site_eqb b a.
Proof.
  destruct a, b; cbn [site_eqb py_number]; try reflexivity;
    try apply num_eqb_sym; apply String.eqb_sym.
Qed.

Lemma site_eqb_trans a b c :
  site_eqb a b = true -> site_eqb b c = true -> site_eqb a c = true.
Proof.
  destruct a, b; cbn [site_eqb py_number]; try discriminate;
    destruct c; cbn [site_eqb py_number];
    try discriminate; try apply num_eqb_trans; auto.
  intros H1 H2. apply String.eqb_eq in H1, H2. subst. apply String.eqb_refl.
Qed.

Lemma site_eqb_refl a : hashable a = true -> site_eqb a a = true.
Proof.
  destruct a; cbn [site_eqb py_number hashable]; try discriminate; intros _;
    try apply num_eqb_refl; try reflexivity.
  apply String.eqb_refl.
Qed.

Lemma key_eqb_sym a b : key_eqb a b = key_eqb b a.
Proof. unfold key_eqb. now rewrite site_eqb_sym, String.eqb_sym. Qed.

Lemma key_eqb_trans a b c :
  key_eqb a b = true -> key_eqb b c = true -> key_eqb a c = true.
Proof.
  unfold key_eqb. rewrite !andb_true_iff. intros [H1 H2] [H3 H4]. split.
  - eapply site_eqb_trans; eauto.
  - apply String.eqb_eq in H2, H4. apply String.eqb_eq. congruence.
Qed.

Lemma key_eqb_refl k : hashable (fst k) = true -> key_eqb k k = true.
Proof.
  intros H. unfold key_eqb. now rewrite site_eqb_refl, String.eqb_refl.
Qed.

Lemma string_eqb_trans (a b c : string) :
  String.eqb a b = true -> String.eqb b c = true -> String.eqb a c = true.
Proof. rewrite !String.eqb_eq. congruence. Qed.

(** A string equals no number, and a stored string key is the string
    looked up. *)
Lemma site_eqb_str_number s n : is_int_or_float n = true -> site_eqb (JStr s) n = false.
Proof. destruct n; simpl; try discriminate; reflexivity. Qed.

Lemma site_eqb_str a s : site_eqb a (JStr s) = true -> a = JStr s.
Proof.
  destruct a; simpl; try discriminate.
  intros H. apply String.eqb_eq in H. now subst.
Qed.

(* ------------------------------------------------------------------ *)
(** ** Stage 1 *)

Lemma stage1_snoc l s st :
  stage1 (l ++ [s]) st = (st' <- stage1 l st ;; accumulate st' s).
Proof.
  revert st. induction l as [|a l IH]; intros st; simpl.
  - destruct (accumulate st s); reflexivity.
  - destruct (accumulate st a); simpl; auto.
Qed.

Lemma first_keys_snoc l s :
  first_keys (l ++ [s]) =
  if seen (fst s) (first_keys l) then first_keys l
  else (first_keys l ++ [fst s])%list.
Proof. unfold first_keys. rewrite fold_left_app. reflexivity. Qed.

Lemma samples_of_snoc k l s :
  samples_of k (l ++ [s]) =
  (samples_of k l ++ (if key_eqb k (fst s) then [snd s] else []))%list.
Proof.
  unfold samples_of. rewrite filter_app, map_app. f_equal. simpl.
  unfold sample, key in *. destruct (key_eqb k (fst s)); reflexivity.
Qed.

Lemma fsum_snoc l c : fsum (l ++ [c]) = PrimFloat.add (fsum l) c.
Proof. unfold fsum. rewrite fold_left_app. reflexivity. Qed.

Lemma seen_equiv a b ks : key_eqb a b = true -> seen a ks = seen b ks.
Proof.
  intros H. unfold seen. induction ks as [|k ks IH]; simpl; [reflexivity|].
  rewrite IH. f_equal. apply (eqb_compat key_eqb key_eqb_sym key_eqb_trans _ _ k H).
Qed.

Lemma seen_first_keys k l :
  seen k (first_keys l) = existsb (fun s => key_eqb (fst s) k) l.
Proof.
  induction l as [|x l IH] using rev_ind; [reflexivity|].
  rewrite first_keys_snoc, existsb_app. simpl. rewrite orb_false_r.
  unfold sample, key in *.
  destruct (seen (fst x) (first_keys l)) eqn:E.
  - destruct (key_eqb (fst x) k) eqn:Ek.
    + rewrite orb_true_r, <- (seen_equiv _ _ _ Ek). exact E.
    + rewrite orb_false_r. exact IH.
  - unfold seen. rewrite existsb_app. simpl. rewrite orb_false_r.
    f_equal. exact IH.
Qed.

Lemma samples_of_equiv a b l : key_eqb a b = true -> samples_of a l = samples_of b l.
Proof.
  intros H. unfold samples_of. f_equal. apply filter_ext. intros s.
  rewrite (key_eqb_sym a), (key_eqb_sym b).
  apply (eqb_compat key_eqb key_eqb_sym key_eqb_trans _ _ (fst s) H).
Qed.

Lemma samples_of_unseen k l : seen k (first_keys l) = false -> samples_of k l = [].
Proof.
  rewrite seen_first_keys. unfold samples_of.
  induction l as [|s l IH]; simpl; [reflexivity|].
  rewrite (key_eqb_sym k). intros H. apply orb_false_iff in H. destruct H as [-> H].
  auto.
Qed.

Lemma samples_of_seen k l :
  seen k (first_keys l) = true -> (1 <= List.length (samples_of k l))%nat.
Proof.
  rewrite seen_first_keys. unfold samples_of.
  induction l as [|s l IH]; simpl; [discriminate|].
  rewrite (key_eqb_sym k). unfold sample, key in *.
  destruct (key_eqb (fst s) k); simpl; [lia | exact IH].
Qed.

(** The two [defaultdict] reads of the loop. *)
Lemma stage1_inv_reads l totals hours k :
  stage1_inv l (totals, hours) ->
  dict_get_default key_eqb 0%float totals k = fsum (samples_of k l) /\
  dict_get_default key_eqb 0 hours k = Z.of_nat (List.length (samples_of k l)).
Proof.
  intros (_ & _ & H). destruct (H k) as [Ht Hh]. simpl in Ht, Hh.
  unfold dict_get_default. rewrite Ht, Hh.
  destruct (seen k (first_keys l)) eqn:E; [split; reflexivity|].
  rewrite (samples_of_unseen _ _ E). split; reflexivity.
Qed.

Lemma accumulate_inv l st s st' :
  stage1_inv l st -> accumulate st s = Ok st' ->
  stage1_inv (l ++ [s]) st' /\ hashable (fst (fst s)) = true.
Proof.
  destruct st as [totals hours], s as [[site d] c]. intros Hinv. unfold accumulate.
  destruct (hashable site) eqn:Hh; [|discriminate]. intros [= <-].
  split; [|exact Hh].
  destruct (stage1_inv_reads (site, d) Hinv) as [Rt Rh]. rewrite Rt, Rh.
  destruct Hinv as (Kt & Kh & Hget). simpl in Kt, Kh.
  unfold stage1_inv. cbn [fst snd].
  rewrite !keys_dict_set, Kt, Kh, first_keys_snoc. cbn [fst].
  fold (seen (site, d) (first_keys l)).
  split; [reflexivity|]. split; [reflexivity|].
  rewrite <- first_keys_snoc with (s := (site, d, c)).
  intros k. rewrite seen_first_keys, existsb_app, <- seen_first_keys.
  rewrite samples_of_snoc. cbn [existsb fst snd]. rewrite orb_false_r.
  destruct (Hget k) as [Gt Gh]. cbn [fst snd] in Gt, Gh.
  destruct (key_eqb k (site, d)) eqn:E.
  - rewrite !(dict_get_set_eq key_eqb key_eqb_sym key_eqb_trans _ _ _ _ E).
    rewrite (key_eqb_sym (site, d) k), E, orb_true_r.
    rewrite fsum_snoc, length_app, (samples_of_equiv _ _ l E). simpl.
    split; do 2 f_equal; lia.
  - rewrite !(dict_get_set_ne key_eqb key_eqb_sym key_eqb_trans _ _ _ _ E).
    rewrite (key_eqb_sym (site, d) k), E, orb_false_r, app_nil_r. auto.
Qed.

Lemma stage1_invariant l st :
  stage1 l ([], []) = Ok st ->
  stage1_inv l st /\ Forall (fun s => hashable (fst (fst s)) = true) l.
Proof.
  revert st. induction l as [|s l IH] using rev_ind; intros st.
  - intros [= <-]. split; [|constructor].
    unfold stage1_inv; simpl. auto.
  - rewrite stage1_snoc.
    destruct (stage1 l ([], [])) as [st0|] eqn:E; simpl; [|discriminate].
    intros Ha. destruct (IH st0 eq_refl) as [Hinv Hall].
    destruct (accumulate_inv _ Hinv Ha) as [Hinv' Hh].
    split; [exact Hinv'|]. apply Forall_app. split; [exact Hall|].
    constructor; [exact Hh | constructor].
Qed.

(** Every stored key is the key of a sample. *)
Lemma first_keys_in l k :
  In k (first_keys l) -> exists s, In s l /\ fst s = k.
Proof.
  induction l as [|x l IH] using rev_ind; [intros []|].
  rewrite first_keys_snoc.
  destruct (seen (fst x) (first_keys l)).
  - intros H. destruct (IH H) as (s & Hs & <-). exists s. split; [|reflexivity].
    apply in_or_app. now left.
  - intros H. apply in_app_or in H. destruct H as [H|[<-|[]]].
    + destruct (IH H) as (s & Hs & <-). exists s. split; [|reflexivity].
      apply in_or_app. now left.
    + exists x. split; [|reflexivity]. apply in_or_app. right. now left.
Qed.

(** A stored key finds itself once every sample has a hashable site. *)
Lemma first_keys_seen l k :
  Forall (fun s => hashable (fst (fst s)) = true) l ->
  In k (first_keys l) -> seen k (first_keys l) = true.
Proof.
  intros Hall Hin. unfold seen. apply existsb_exists. exists k. split; [exact Hin|].
  apply key_eqb_refl. destruct (first_keys_in _ _ Hin) as (s & Hs & <-).
  rewrite Forall_forall in Hall. now apply Hall.
Qed.

(** Every sample's key is found among the stored keys. *)
Lemma sample_key_seen l s :
  Forall (fun s => hashable (fst (fst s)) = true) l ->
  In s l -> seen (fst s) (first_keys l) = true.
Proof.
  intros Hall Hin. rewrite seen_first_keys. apply existsb_exists.
  exists s. split; [exact Hin|]. apply key_eqb_refl.
  rewrite Forall_forall in Hall. now apply Hall.
Qed.

Lemma distinct_snoc ks x : distinct ks -> seen x ks = false -> distinct (ks ++ [x]).
Proof.
  induction ks as [|k ks IH]; simpl; intros Hd Hs.
  - split; [intros _ []|exact I].
  - apply orb_false_iff in Hs. destruct Hs as [Hk Hs]. destruct Hd as [Hd1 Hd2].
    split; [|now apply IH].
    intros k1 Hin. apply in_app_or in Hin. destruct Hin as [Hin|[<-|[]]]; auto.
Qed.

Lemma first_keys_distinct l : distinct (first_keys l).
Proof.
  induction l as [|x l IH] using rev_ind; [exact I|].
  rewrite first_keys_snoc. destruct (seen (fst x) (first_keys l)) eqn:E; auto.
  now apply distinct_snoc.
Qed.

Lemma distinct_filter p ks : distinct ks -> distinct (filter p ks).
Proof.
  induction ks as [|k ks IH]; simpl; [auto|]. intros [H1 H2].
  destruct (p k); simpl; [|auto]. split; [|auto].
  intros k1 Hin. apply filter_In in Hin. apply H1. tauto.
Qed.

(** The guarded division of stage 1, key by key. *)
Lemma site_day_avg_stored l totals hours k :
  stage1_inv l (totals, hours) ->
  seen k (first_keys l) = true ->
  site_day_avg totals hours k = [mean_of_samples l k].
Proof.
  intros Hinv Hs. unfold site_day_avg, mean_of_samples.
  destruct (stage1_inv_reads k Hinv) as [-> ->].
  pose proof (samples_of_seen _ _ Hs) as Hn.
  destruct (0 <? Z.of_nat (List.length (samples_of k l))) eqn:E; [reflexivity|].
  apply Z.ltb_ge in E. lia.
Qed.

Lemma flat_map_singletons (A B : Type) (f : A -> list B) (g : A -> B) l :
  (forall a, In a l -> f a = [g a]) -> flat_map f l = map g l.
Proof.
  induction l as [|a l IH]; simpl; intros H; [reflexivity|].
  rewrite (H a (or_introl eq_refl)), IH; [reflexivity|]. intros b Hb. apply H. now right.
Qed.

(** Stage 1 ends normally exactly when every sample's site can be hashed. *)
Lemma stage1_total l st :
  hashable_sites l -> exists st', stage1 l st = Ok st'.
Proof.
  unfold hashable_sites. intros H. revert st.
  induction H as [|[[site d] c] l Hs _ IH]; intros [totals hours]; simpl.
  - eauto.
  - cbn [fst] in Hs. rewrite Hs. cbn [bind]. apply IH.
Qed.

(** C1: stage 1 ends with one key per site-day that has a sample, in
    the order the samples first show them; every sample's site-day has its
    key; the list of site-day averages has, key by key, the sum of that
    site-day's counts divided by their number; and no key stands for zero
    samples. *)
Theorem site_day_average (samples : list sample) :
  hashable_sites samples ->
  exists totals hours,
    stage1 samples ([], []) = Ok (totals, hours)
    /\ map fst totals = first_keys samples
    /\ site_day_avgs totals hours = map (mean_of_samples samples) (first_keys samples)
    /\ (forall s, In s samples ->
          exists k, In k (first_keys samples) /\ key_eqb k (fst s) = true)
    /\ (forall k, In k (first_keys samples) ->
          (1 <= List.length (samples_of k samples))%nat).
Proof.
  intros Hh. destruct (stage1_total ([], []) Hh) as [[totals hours] H].
  exists totals, hours. split; [exact H|].
  destruct (stage1_invariant _ H) as [Hinv Hall].
  pose proof Hinv as (Kt & _ & _). simpl in Kt.
  split; [exact Kt|]. split; [|split].
  - unfold site_day_avgs. rewrite Kt. apply flat_map_singletons.
    intros k Hk. apply (site_day_avg_stored k Hinv).
    now apply first_keys_seen.
  - intros s Hs. pose proof (sample_key_seen _ Hall Hs) as Hseen.
    unfold seen in Hseen. apply existsb_exists in Hseen.
    destruct Hseen as (k & Hk & Hek). eauto.
  - intros k Hk. apply samples_of_seen. now apply first_keys_seen.
Qed.

Lemma site_day_average_witness :
  exists totals hours,
    stage1 (filtered scenario 2022 7) ([], []) = Ok (totals, hours)
    /\ map fst totals = first_keys (filtered scenario 2022 7)
    /\ site_day_avgs totals hours
       = map (mean_of_samples (filtered scenario 2022 7))
             (first_keys (filtered scenario 2022 7))
    /\ (forall s, In s (filtered scenario 2022 7) ->
          exists k, In k (first_keys (filtered scenario 2022 7))
                    /\ key_eqb k (fst s) = true)
    /\ (forall k, In k (first_keys (filtered scenario 2022 7)) ->
          (1 <= List.length (samples_of k (filtered scenario 2022 7)))%nat).
Proof.
  apply site_day_average. unfold hashable_sites.
  vm_compute filtered. repeat constructor.
Defined.

Example scenario_site_day :
  map (mean_of_samples (filtered scenario 2022 7))
      (first_keys (filtered scenario 2022 7))
  = [15%float; 100%float].
Proof. vm_compute. reflexivity. Qed.

(** C8: every key of the sum dictionary has a count of at least 1 in the
    count dictionary, so the guard of stage 1 always passes and the
    division of stage 2 never has a zero divisor. *)
Theorem hours_at_least_one (samples : list sample) (totals : totals_t) (hours : hours_t) :
  stage1 samples ([], []) = Ok (totals, hours) ->
  forall k, In k (map fst totals) ->
    1 <= dict_get_default key_eqb 0 hours k
    /\ site_day_avg totals hours k =
         [PrimFloat.div (dict_get_default key_eqb 0%float totals k)
                        (Z2float (dict_get_default key_eqb 0 hours k))]
    /\ true_div (dict_get_default key_eqb 0%float totals k)
                (dict_get_default key_eqb 0 hours k)
       = Ok (PrimFloat.div (dict_get_default key_eqb 0%float totals k)
                           (Z2float (dict_get_default key_eqb 0 hours k))).
Proof.
  intros H k Hk. destruct (stage1_invariant _ H) as [Hinv Hall].
  pose proof Hinv as (Kt & _ & _). simpl in Kt. rewrite Kt in Hk.
  pose proof (first_keys_seen _ Hall Hk) as Hseen.
  pose proof (samples_of_seen _ _ Hseen) as Hn.
  destruct (stage1_inv_reads k Hinv) as [Rt Rh].
  assert (H1 : 1 <= dict_get_default key_eqb 0 hours k) by (rewrite Rh; lia).
  split; [exact H1|]. split.
  - unfold site_day_avg.
    destruct (0 <? dict_get_default key_eqb 0 hours k) eqn:E; [reflexivity|].
    apply Z.ltb_ge in E. lia.
  - unfold true_div.
    destruct (dict_get_default key_eqb 0 hours k =? 0) eqn:E; [|reflexivity].
    apply Z.eqb_eq in E. lia.
Qed.

Lemma hours_at_least_one_witness :
  1 <= dict_get_default key_eqb 0
         [((JStr "A", "2022-07-01"), 2); ((JStr "B", "2022-07-01"), 1)]
         (JStr "A", "2022-07-01").
Proof.
  refine (proj1 (@hours_at_least_one (filtered scenario 2022 7)
                   [((JStr "A", "2022-07-01"), 30%float);
                    ((JStr "B", "2022-07-01"), 100%float)]
                   [((JStr "A", "2022-07-01"), 2);
                    ((JStr "B", "2022-07-01"), 1)] _
                   (JStr "A", "2022-07-01") _)).
  - vm_compute. reflexivity.
  - simpl. left. reflexivity.
Defined.

(* ------------------------------------------------------------------ *)
(** ** Stage 2 *)

Lemma day_to_site_avgs_ok l totals hours keys acc :
  stage1_inv l (totals, hours) ->
  (forall k, In k keys -> seen k (first_keys l) = true) ->
  day_to_site_avgs keys totals hours acc
  = Ok (group_days (mean_of_samples l) keys acc).
Proof.
  intros Hinv. revert acc. induction keys as [|k keys IH]; intros acc Hk; simpl.
  - reflexivity.
  - destruct (stage1_inv_reads k Hinv) as [-> ->].
    pose proof (samples_of_seen _ _ (Hk k (or_introl eq_refl))) as Hn.
    unfold true_div.
    destruct (Z.of_nat (List.length (samples_of k l)) =? 0) eqn:E.
    + apply Z.eqb_eq in E. lia.
    + simpl. apply IH. intros k' Hin. apply Hk. now right.
Qed.

Lemma group_days_get f keys acc d :
  dict_get_default String.eqb [] (group_days f keys acc) d
  = (dict_get_default String.eqb [] acc d
     ++ map f (filter (fun k => String.eqb (snd k) d) keys))%list.
Proof.
  revert acc. induction keys as [|k keys IH]; intros acc; simpl.
  - now rewrite app_nil_r.
  - rewrite IH. unfold dict_get_default at 1.
    destruct (String.eqb (snd k) d) eqn:E.
    + pose proof E as E'. rewrite String.eqb_sym in E'.
      rewrite (dict_get_set_eq String.eqb String.eqb_sym string_eqb_trans _ _ _ _ E').
      apply String.eqb_eq in E. rewrite E. simpl. now rewrite <- app_assoc.
    + pose proof E as E'. rewrite String.eqb_sym in E'.
      rewrite (dict_get_set_ne String.eqb String.eqb_sym string_eqb_trans _ _ _ _ E').
      reflexivity.
Qed.

Lemma group_days_keys f keys acc d :
  In d (map fst (group_days f keys acc)) <->
  In d (map fst acc) \/ In d (map snd keys).
Proof.
  revert acc. induction keys as [|k keys IH]; intros acc; simpl.
  - tauto.
  - rewrite IH, keys_dict_set.
    destruct (existsb (fun k' => String.eqb k' (snd k)) (map fst acc)) eqn:E.
    + apply existsb_exists in E. destruct E as (x & Hx & Hxe).
      apply String.eqb_eq in Hxe. subst x.
      split; [tauto|]. intros [H|[<-|H]]; auto.
    + rewrite in_app_iff. simpl. tauto.
Qed.

Lemma in_insert_sorted s l x : In x (insert_sorted s l) <-> x = s \/ In x l.
Proof.
  induction l as [|t l IH]; simpl; [intuition congruence|].
  destruct (String.leb s t); simpl; [intuition congruence|].
  rewrite IH. intuition congruence.
Qed.

Lemma in_sorted l x : In x (sorted l) <-> In x l.
Proof.
  unfold sorted. induction l as [|a l IH]; simpl; [tauto|].
  rewrite in_insert_sorted, IH. intuition congruence.
Qed.

Lemma mapM_ok (A B : Type) (f : A -> result B) (l : list A) :
  (forall a, In a l -> is_ok (f a) = true) ->
  exists bs, mapM f l = Ok bs /\ List.length bs = List.length l /\
    forall i a, nth_error l i = Some a ->
      exists b, nth_error bs i = Some b /\ f a = Ok b.
Proof.
  induction l as [|a l IH]; intros H; simpl.
  - exists []. split; [reflexivity|]. split; [reflexivity|].
    intros [|i] a Ha; discriminate.
  - destruct (f a) as [b|] eqn:Ea.
    2:{ specialize (H a (or_introl eq_refl)). rewrite Ea in H. discriminate. }
    destruct IH as (bs & -> & Hlen & Hnth); [intros x Hx; apply H; now right|].
    exists (b :: bs). simpl. split; [reflexivity|]. split; [now rewrite Hlen|].
    intros [|i] x Hx; simpl in *.
    + injection Hx as <-. eauto.
    + now apply Hnth.
Qed.

Lemma mean_ok (l : list float) : l <> [] -> is_ok (mean l) = true.
Proof.
  destruct l as [|x l]; [congruence|]. intros _. unfold mean.
  destruct (nonfinite_sum (x :: l) None); [reflexivity|].
  destruct (exact_sum (x :: l) (0, 0)). reflexivity.
Qed.

(** The site-day keys of a sample's date hold the sample's key. *)
Lemma keys_of_day_sample l s :
  Forall (fun s => hashable (fst (fst s)) = true) l -> In s l ->
  exists k, In k (keys_of_day (snd (fst s)) l) /\ key_eqb k (fst s) = true.
Proof.
  intros Hall Hs. pose proof (sample_key_seen _ Hall Hs) as Hseen.
  unfold seen in Hseen. apply existsb_exists in Hseen.
  destruct Hseen as (k & Hk & Hek). exists k. split; [|exact Hek].
  unfold keys_of_day. apply filter_In. split; [exact Hk|].
  unfold key_eqb in Hek. apply andb_true_iff in Hek. tauto.
Qed.

(** What stage 2 makes of the dictionaries of stage 1. *)
Lemma stage2_days l totals hours :
  stage1 l ([], []) = Ok (totals, hours) ->
  exists days,
    day_to_site_avgs (map fst hours) totals hours [] = Ok days /\
    (forall d, dict_get_default String.eqb [] days d
               = map (mean_of_samples l) (keys_of_day d l)) /\
    (forall d, In d (map fst days) <-> In d (map snd (first_keys l))).
Proof.
  intros H. destruct (stage1_invariant _ H) as [Hinv Hall].
  pose proof Hinv as (_ & Kh & _). simpl in Kh.
  exists (group_days (mean_of_samples l) (first_keys l) []).
  split; [|split].
  - rewrite Kh. apply day_to_site_avgs_ok; [exact Hinv|].
    intros k Hk. now apply first_keys_seen.
  - intros d. rewrite group_days_get. reflexivity.
  - intros d. rewrite group_days_keys. simpl. tauto.
Qed.

(** C2: the series of stage 2 has, for the date of every accepted
    sample, the mean of the site-day averages of that date, one average
    per site-day key of that date; the keys of one date are distinct
    sites, however many samples each has. *)
Theorem cross_site_day_average (samples : list sample) :
  hashable_sites samples ->
  exists totals hours days ys,
    stage1 samples ([], []) = Ok (totals, hours)
    /\ day_to_site_avgs (map fst hours) totals hours [] = Ok days
    /\ y_values days = Ok ys
    /\ List.length ys = List.length (sorted_days days)
    /\ (forall s, In s samples ->
          exists i y,
            nth_error (sorted_days days) i = Some (snd (fst s))
            /\ nth_error ys i = Some y
            /\ mean (map (mean_of_samples samples)
                         (keys_of_day (snd (fst s)) samples)) = Ok y)
    /\ (forall d, distinct (keys_of_day d samples)).
Proof.
  intros Hh. destruct (stage1_total ([], []) Hh) as [[totals hours] H].
  destruct (stage1_invariant _ H) as [Hinv Hall].
  destruct (@stage2_days _ _ _ H) as (days & Hdays & Hget & Hkeys).
  assert (Hin : forall d, In d (sorted_days days) ->
                          exists k, In k (keys_of_day d samples)).
  { intros d Hd. unfold sorted_days in Hd. apply in_sorted, Hkeys in Hd.
    apply in_map_iff in Hd. destruct Hd as (k & <- & Hk). exists k.
    unfold keys_of_day. apply filter_In. split; [exact Hk | apply String.eqb_refl]. }
  destruct (mapM_ok (fun d => mean (dict_get_default String.eqb [] days d))
                    (sorted_days days)) as (ys & Hys & Hlen & Hnth).
  { intros d Hd. apply mean_ok. rewrite Hget.
    destruct (Hin d Hd) as (k & Hk).
    destruct (keys_of_day d samples); [destruct Hk | discriminate]. }
  exists totals, hours, days, ys. split; [exact H|].
  split; [exact Hdays|]. split; [exact Hys|].
  split; [exact Hlen|]. split.
  - intros s Hs.
    destruct (@keys_of_day_sample _ _ Hall Hs) as (k & Hk & _).
    assert (Hd : In (snd (fst s)) (sorted_days days)).
    { unfold sorted_days. apply in_sorted, Hkeys, in_map_iff. exists k.
      unfold keys_of_day in Hk. apply filter_In in Hk. destruct Hk as [Hk He].
      apply String.eqb_eq in He. auto. }
    apply In_nth_error in Hd. destruct Hd as (i & Hi).
    destruct (Hnth i _ Hi) as (y & Hy & Hm). rewrite Hget in Hm.
    exists i, y. auto.
  - intros d. apply distinct_filter, first_keys_distinct.
Qed.

Lemma cross_site_day_average_witness :
  exists totals hours days ys,
    stage1 (filtered scenario 2022 7) ([], []) = Ok (totals, hours)
    /\ day_to_site_avgs (map fst hours) totals hours [] = Ok days
    /\ y_values days = Ok ys
    /\ List.length ys = List.length (sorted_days days)
    /\ (forall s, In s (filtered scenario 2022 7) ->
          exists i y,
            nth_error (sorted_days days) i = Some (snd (fst s))
            /\ nth_error ys i = Some y
            /\ mean (map (mean_of_samples (filtered scenario 2022 7))
                         (keys_of_day (snd (fst s)) (filtered scenario 2022 7)))
               = Ok y)
    /\ (forall d, distinct (keys_of_day d (filtered scenario 2022 7))).
Proof.
  apply cross_site_day_average. unfold hashable_sites.
  vm_compute filtered. repeat constructor.
Defined.

Example scenario_cross_site :
  mean (map (mean_of_samples (filtered scenario 2022 7))
            (keys_of_day "2022-07-01" (filtered scenario 2022 7)))
  = Ok 57.5%float.
Proof. vm_compute. reflexivity. Qed.

(* ------------------------------------------------------------------ *)
(** ** Site identifiers as keys *)

(** C10: a site given as a string and a site given as a number, on the
    same date, have different keys: the string is stored as it is, a
    number-keyed entry is stored as well, and the day's list of averages
    has one value for each at different places. *)
Theorem site_ids_verbatim (samples : list sample)
    (s : string) (n : json) (d : string) (c1 c2 : float) :
  hashable_sites samples ->
  In (JStr s, d, c1) samples ->
  In (n, d, c2) samples ->
  is_int_or_float n = true ->
  key_eqb (JStr s, d) (n, d) = false
  /\ exists totals hours days k2 i j,
       stage1 samples ([], []) = Ok (totals, hours)
       /\ day_to_site_avgs (map fst hours) totals hours [] = Ok days
       /\ key_eqb k2 (n, d) = true /\ is_int_or_float (fst k2) = true
       /\ i <> j
       /\ nth_error (keys_of_day d samples) i = Some (JStr s, d)
       /\ nth_error (keys_of_day d samples) j = Some k2
       /\ dict_get key_eqb totals (JStr s, d)
          = Some (fsum (samples_of (JStr s, d) samples))
       /\ dict_get key_eqb totals (n, d) = Some (fsum (samples_of k2 samples))
       /\ dict_get_default String.eqb [] days d
          = map (mean_of_samples samples) (keys_of_day d samples).
Proof.
  intros Hh Hs Hn Hnum.
  assert (Hne : key_eqb (JStr s, d) (n, d) = false).
  { unfold key_eqb. cbn [fst snd]. now rewrite site_eqb_str_number. }
  split; [exact Hne|].
  destruct (stage1_total ([], []) Hh) as [[totals hours] H].
  destruct (stage1_invariant _ H) as [Hinv Hall].
  destruct (@keys_of_day_sample _ _ Hall Hs) as (k1 & Hk1 & He1).
  destruct (@keys_of_day_sample _ _ Hall Hn) as (k2 & Hk2 & He2).
  cbn [fst snd] in Hk1, Hk2, He1, He2.
  assert (k1 = (JStr s, d)) as ->.
  { destruct k1 as [a d1]. unfold key_eqb in He1. cbn [fst snd] in He1.
    apply andb_true_iff in He1. destruct He1 as [Ha Hd].
    apply site_eqb_str in Ha. apply String.eqb_eq in Hd. now subst. }
  assert (Hnum2 : is_int_or_float (fst k2) = true).
  { unfold key_eqb in He2. cbn [fst snd] in He2.
    apply andb_true_iff in He2. destruct He2 as [Ha _].
    destruct (fst k2), n; simpl in *; try discriminate; reflexivity. }
  destruct (In_nth_error _ _ Hk1) as (i & Hi).
  destruct (In_nth_error _ _ Hk2) as (j & Hj).
  destruct (@stage2_days _ _ _ H) as (days & Hdays & Hget & _).
  destruct Hinv as (_ & _ & Hd). cbn [fst snd] in Hd.
  exists totals, hours, days, k2, i, j.
  split; [exact H|]. split; [exact Hdays|].
  split; [exact He2|]. split; [exact Hnum2|]. split.
  { intros ->. rewrite Hi in Hj. injection Hj as <-. discriminate. }
  split; [exact Hi|]. split; [exact Hj|]. split; [|split].
  - pose proof (sample_key_seen _ Hall Hs) as Hseen. cbn [fst] in Hseen.
    rewrite (proj1 (Hd (JStr s, d))), Hseen. reflexivity.
  - pose proof (sample_key_seen _ Hall Hn) as Hseen. cbn [fst] in Hseen.
    rewrite (proj1 (Hd (n, d))), Hseen.
    now rewrite (samples_of_equiv _ _ samples He2).
  - apply Hget.
Qed.

Lemma site_ids_verbatim_witness :
  key_eqb (JStr "1", "2022-07-01") (JInt 1, "2022-07-01") = false
  /\ exists totals hours days k2 i j,
       stage1 mixed_sites ([], []) = Ok (totals, hours)
       /\ day_to_site_avgs (map fst hours) totals hours [] = Ok days
       /\ key_eqb k2 (JInt 1, "2022-07-01") = true
       /\ is_int_or_float (fst k2) = true
       /\ i <> j
       /\ nth_error (keys_of_day "2022-07-01" mixed_sites) i
          = Some (JStr "1", "2022-07-01")
       /\ nth_error (keys_of_day "2022-07-01" mixed_sites) j = Some k2
       /\ dict_get key_eqb totals (JStr "1", "2022-07-01")
          = Some (fsum (samples_of (JStr "1", "2022-07-01") mixed_sites))
       /\ dict_get key_eqb totals (JInt 1, "2022-07-01")
          = Some (fsum (samples_of k2 mixed_sites))
       /\ dict_get_default String.eqb [] days "2022-07-01"
          = map (mean_of_samples mixed_sites) (keys_of_day "2022-07-01" mixed_sites).
Proof.
  apply (@site_ids_verbatim mixed_sites "1" (JInt 1) "2022-07-01" 10%float 20%float).
  - unfold hashable_sites, mixed_sites. repeat constructor.
  - left. reflexivity.
  - right. left. reflexivity.
  - reflexivity.
Defined.

(** The three samples give two site-days: the string "1" alone, and the
    integer 1 with the float 1.0, which the dictionary takes for one key. *)
Example mixed_sites_run :
  stage1 mixed_sites ([], [])
  = Ok ([((JStr "1", "2022-07-01"), 10%float); ((JInt 1, "2022-07-01"), 60%float)],
        [((JStr "1", "2022-07-01"), 1); ((JInt 1, "2022-07-01"), 2)]).
Proof. vm_compute. reflexivity. Qed.

(* ------------------------------------------------------------------ *)
(** ** The run as a whole *)

(** A run that ends normally either printed the notice, with no site-day
    average at all, or reported the averages of stage 1 and drew the
    series of stage 2. *)
Lemma main_inv (data : list json) (y m : Z) (evs : list event) :
  main data y m = Ok evs ->
  exists totals hours,
    stage1 (filtered data y m) ([], []) = Ok (totals, hours)
    /\ ((site_day_avgs totals hours = [] /\ evs = [Print no_data_notice])
        \/ exists days xs ys,
             day_to_site_avgs (map fst hours) totals hours [] = Ok days
             /\ y_values days = Ok ys
             /\ x_values days = Ok xs
             /\ evs = [PrintStats y m (site_day_avgs totals hours);
                       SaveFig (chart_name y m) xs ys;
                       Print ("Saved line chart to " ++ chart_name y m)]).
Proof.
  unfold main.
  destruct (stage1 (filtered data y m) ([], [])) as [[totals hours]|];
    cbn [bind]; [|discriminate].
  intros H. exists totals, hours. split; [reflexivity|].
  destruct (site_day_avgs totals hours) as [|a avgs] eqn:Ea.
  - left. split; [reflexivity|]. injection H as <-. reflexivity.
  - right.
    destruct (day_to_site_avgs (map fst hours) totals hours []) as [days|] eqn:Ed;
      cbn [bind] in H; [|discriminate].
    destruct (y_values days) as [ys|] eqn:Ey; cbn [bind] in H; [|discriminate].
    destruct (x_values days) as [xs|] eqn:Ex; cbn [bind] in H; [|discriminate].
    injection H as <-. exists days, xs, ys.
    split; [reflexivity|]. split; [exact Ey|]. split; [exact Ex | reflexivity].
Qed.

(** *** The day of month read back from a date string *)

Lemma string_app_assoc (a b c : string) : (a ++ b) ++ c = a ++ (b ++ c).
Proof. induction a as [|x a IH]; simpl; [reflexivity | now rewrite IH]. Qed.

Lemma fixed_digits_acc w z acc :
  fixed_digits w z acc = fixed_digits w z EmptyString ++ acc.
Proof.
  revert z acc. induction w as [|w IH]; intros z acc; cbn [fixed_digits];
    [reflexivity|].
  set (c := ascii_of_nat (48 + Z.to_nat (z mod 10))).
  rewrite (IH (z / 10) (String c acc)), (IH (z / 10) (String c EmptyString)).
  rewrite string_app_assoc. reflexivity.
Qed.

Lemma digit_char (r : Z) :
  0 <= r < 10 ->
  digit_val (ascii_of_nat (48 + Z.to_nat r)) = Some r
  /\ is_char (ascii_of_nat (48 + Z.to_nat r)) "-" = false.
Proof.
  intros H.
  assert (C : r = 0 \/ r = 1 \/ r = 2 \/ r = 3 \/ r = 4 \/ r = 5 \/ r = 6
              \/ r = 7 \/ r = 8 \/ r = 9) by lia.
  repeat (destruct C as [-> | C]); try subst r; split; reflexivity.
Qed.

Lemma has_dash_app pre suf :
  existsb (fun c => is_char c "-") (list_ascii_of_string (pre ++ String "-" suf)) = true.
Proof.
  induction pre as [|c pre IH]; simpl; [reflexivity|].
  rewrite IH. apply orb_true_r.
Qed.

Lemma split_dash_last_app pre suf :
  existsb (fun c => is_char c "-") (list_ascii_of_string suf) = false ->
  split_dash_last (pre ++ String "-" suf) = suf.
Proof.
  intros H. induction pre as [|c pre IH].
  - simpl. rewrite H. reflexivity.
  - cbn [append split_dash_last]. rewrite has_dash_app. exact IH.
Qed.

Lemma day_of_isoformat dt :
  valid_datetime dt ->
  int_of_string (split_dash_last (date_isoformat dt)) = Ok (day dt).
Proof.
  intros (_ & _ & Hd). unfold date_isoformat.
  rewrite (fixed_digits_acc 4), (fixed_digits_acc 2 (month dt)).
  change (String "-" (fixed_digits 2 (month dt) EmptyString
                      ++ String "-" (fixed_digits 2 (day dt) EmptyString)))
    with (String "-" (fixed_digits 2 (month dt) EmptyString)
          ++ String "-" (fixed_digits 2 (day dt) EmptyString)).
  rewrite <- string_app_assoc.
  cbn [fixed_digits].
  destruct (@digit_char (day dt mod 10)) as [V0 D0];
    [apply Z.mod_pos_bound; lia|].
  destruct (@digit_char (day dt / 10 mod 10)) as [V1 D1];
    [apply Z.mod_pos_bound; lia|].
  rewrite split_dash_last_app.
  - unfold int_of_string. cbn [String.length parse_digits].
    rewrite V1, V0. f_equal. Z.div_mod_to_equations. lia.
  - cbn [list_ascii_of_string existsb]. rewrite D1, D0. reflexivity.
Qed.

(** ** The run as a whole, continued *)




(* ------------------------------------------------------------------ *)
(** * Further properties *)

(** ** How a run ends *)



Example list_site_run : main list_site_data 2022 7 = Raise TypeError.
Proof. vm_compute. reflexivity. Qed.

(** ** The field readers *)

Lemma contains_object ms k : contains (JObj ms) k = Ok (has_key ms k).
Proof. reflexivity. Qed.

Lemma getitem_object ms k :
  has_key ms k = true -> exists v, value_of ms k = Some v /\ getitem (JObj ms) k = Ok v.
Proof.
  unfold has_key, value_of, getitem. intros H.
  destruct (find (fun kv => String.eqb (fst kv) k) ms) as [kv|] eqn:E.
  - exists (snd kv). split; reflexivity.
  - apply existsb_exists in H. destruct H as (kv & Hin & Hk).
    pose proof (find_none _ _ E kv Hin) as Hn. simpl in Hn. congruence.
Qed.

(** X2: on a JSON object a reader gives the value of the first candidate
    key, in the reader's order, that the object has, whatever later
    candidates hold. *)
Theorem probe_first_match (ms : list (string * json)) (pre post : list string)
    (k : string) (v : json) :
  (forall k', In k' pre -> has_key ms k' = false) ->
  value_of ms k = Some v ->
  probe (pre ++ k :: post) (JObj ms) = Ok (Some v).
Proof.
  intros Hpre Hv. induction pre as [|k0 pre IH]; cbn [app probe].
  - rewrite contains_object. cbn [bind].
    destruct (has_key ms k) eqn:Hk.
    + destruct (getitem_object ms k Hk) as (v' & Hv' & ->).
      cbn [bind]. congruence.
    + unfold has_key in Hk. unfold value_of in Hv.
      destruct (find (fun kv => String.eqb (fst kv) k) ms) as [kv|] eqn:E;
        [|discriminate].
      apply find_some in E. destruct E as [Hin Hkv].
      assert (existsb (fun kv => String.eqb (fst kv) k) ms = true)
        by (apply existsb_exists; eauto).
      congruence.
  - rewrite contains_object. cbn [bind].
    rewrite (Hpre k0 (or_introl eq_refl)). apply IH.
    intros k' Hk'. apply Hpre. now right.
Qed.

Lemma probe_first_match_witness :
  probe site_keys (JObj [("id", JInt 7); ("site", JStr "S"); ("x", JNull)])
  = Ok (Some (JStr "S")).
Proof.
  apply (@probe_first_match
           [("id", JInt 7); ("site", JStr "S"); ("x", JNull)]
           ["site_id"; "siteID"] ["SITE_ID"; "id"] "site" (JStr "S")).
  - intros k' [<-|[<-|[]]]; reflexivity.
  - reflexivity.
Defined.

Lemma probe_none (ms : list (string * json)) (keys : list string) :
  (forall k, In k keys -> has_key ms k = false) -> probe keys (JObj ms) = Ok None.
Proof.
  induction keys as [|k keys IH]; intros H; cbn [probe]; [reflexivity|].
  rewrite contains_object. cbn [bind]. rewrite (H k (or_introl eq_refl)).
  apply IH. intros k' Hk'. apply H. now right.
Qed.

(** X3: a record that is not a JSON object (null, a boolean, a number, a
    string or an array) is never accepted. *)
Theorem non_object_skipped (y m : Z) (rec : json) :
  is_object rec = false -> accepted y m rec = None.
Proof.
  destruct rec as [|b|n|f|s|l|ms]; intros H; try discriminate; try reflexivity.
  - unfold accepted, normalize, get_counts, counts_keys. cbn [probe contains bind].
    destruct (str_contains "counts" s); [reflexivity|]. cbn iota.
    destruct (str_contains "count" s); [reflexivity|]. cbn iota.
    destruct (str_contains "COUNT" s); [reflexivity|]. cbn iota.
    destruct (str_contains "value" s); reflexivity.
  - unfold accepted, normalize, get_counts, counts_keys. cbn [probe contains bind].
    destruct (existsb _ l); [reflexivity|]. cbn iota.
    destruct (existsb _ l); [reflexivity|]. cbn iota.
    destruct (existsb _ l); [reflexivity|]. cbn iota.
    destruct (existsb _ l); reflexivity.
Qed.

Lemma non_object_skipped_witness :
  accepted 2022 7 (JStr "counts") = None
  /\ accepted 2022 7 (JList [JStr "count"; JInt 3]) = None.
Proof.
  split; apply non_object_skipped; reflexivity.
Defined.

(** X4: a record is skipped when it has none of the timestamp keys, when
    its timestamp does not parse (a null, an array, an object, a text that
    is no ISO date, a number beyond the calendar), or when it has none of
    the site keys. *)
Theorem missing_field_skipped (y m : Z) (rec : json) :
  probe timestamp_keys rec = Ok None
  \/ (exists ts e, get_timestamp rec = Ok ts /\ parse_ts ts = Raise e)
  \/ probe site_keys rec = Ok None ->
  accepted y m rec = None.
Proof.
  intros H. unfold accepted, normalize.
  destruct (get_counts rec) as [cnt|]; cbn [bind]; [|reflexivity].
  destruct (bad_count cnt); [reflexivity|].
  destruct H as [H | [(ts & e & Ht & Hp) | H]].
  - unfold get_timestamp. rewrite H. reflexivity.
  - rewrite Ht. cbn [bind]. rewrite Hp. reflexivity.
  - destruct (get_timestamp rec) as [ts|]; cbn [bind]; [|reflexivity].
    destruct (parse_ts ts) as [dt|]; cbn [bind]; [|reflexivity].
    destruct (negb (year dt =? y) || negb (month dt =? m)); [reflexivity|].
    unfold get_site_id. rewrite H. reflexivity.
Qed.

Lemma missing_field_skipped_witness :
  accepted 2022 7 (JObj [("site_id", JStr "A"); ("count", JInt 5)]) = None
  /\ accepted 2022 7 (JObj [("site_id", JStr "A"); ("timestamp", JNull);
                            ("count", JInt 5)]) = None
  /\ accepted 2022 7 (JObj [("timestamp", JStr "2022-07-01"); ("count", JInt 5)])
     = None.
Proof.
  split; [|split]; apply missing_field_skipped.
  - left. reflexivity.
  - right. left. exists JNull, ValueError. split; reflexivity.
  - right. right. reflexivity.
Defined.

(** ** Keys that no reader looks for *)

Lemma has_key_extra ms1 ms2 k v k' :
  String.eqb k k' = false ->
  has_key (ms1 ++ (k, v) :: ms2) k' = has_key (ms1 ++ ms2) k'.
Proof.
  intros H. unfold has_key. rewrite !existsb_app. cbn [existsb fst].
  rewrite H. reflexivity.
Qed.

Lemma getitem_extra ms1 ms2 k v k' :
  String.eqb k k' = false ->
  getitem (JObj (ms1 ++ (k, v) :: ms2)) k' = getitem (JObj (ms1 ++ ms2)) k'.
Proof.
  intros H. unfold getitem.
  assert (E : find (fun kv => String.eqb (fst kv) k') (ms1 ++ (k, v) :: ms2)
              = find (fun kv => String.eqb (fst kv) k') (ms1 ++ ms2)).
  { induction ms1 as [|kv ms1 IH]; cbn [app find fst].
    - rewrite H. reflexivity.
    - destruct (String.eqb (fst kv) k'); [reflexivity | exact IH]. }
  rewrite E. reflexivity.
Qed.

Lemma probe_extra ms1 ms2 k v keys :
  (forall k', In k' keys -> String.eqb k k' = false) ->
  probe keys (JObj (ms1 ++ (k, v) :: ms2)) = probe keys (JObj (ms1 ++ ms2)).
Proof.
  induction keys as [|k0 keys IH]; intros H; cbn [probe]; [reflexivity|].
  rewrite !contains_object. cbn [bind].
  rewrite (@has_key_extra ms1 ms2 _ v _ (H k0 (or_introl eq_refl))).
  rewrite (@getitem_extra ms1 ms2 _ v _ (H k0 (or_introl eq_refl))).
  rewrite IH; [reflexivity|]. intros k' Hk'. apply H. now right.
Qed.

(** X5: a key that is none of the candidate keys of the three readers
    plays no part: an object with such a key and the same object without
    it are accepted alike, with the same sample. *)
Theorem extra_key_ignored (y m : Z) (ms1 ms2 : list (string * json))
    (k : string) (v : json) :
  recognized k = false ->
  accepted y m (JObj (ms1 ++ (k, v) :: ms2)) = accepted y m (JObj (ms1 ++ ms2)).
Proof.
  intros H. unfold recognized in H.
  assert (Hk : forall k', In k' (site_keys ++ counts_keys ++ timestamp_keys)%list ->
                          String.eqb k k' = false).
  { intros k' Hin. destruct (String.eqb k k') eqn:E; [|reflexivity].
    assert (existsb (String.eqb k) (site_keys ++ counts_keys ++ timestamp_keys)%list
            = true) by (apply existsb_exists; eauto).
    congruence. }
  unfold accepted, normalize, get_counts, get_timestamp, get_site_id.
  rewrite !(@probe_extra ms1 ms2 k v); [reflexivity| | |];
    intros k' Hk'; apply Hk; rewrite !in_app_iff; auto.
Qed.

Lemma extra_key_ignored_witness :
  accepted 2022 7 (JObj ([("site_id", JStr "A")]
                         ++ ("lane", JInt 2)
                         :: [("timestamp", JStr "2022-07-01T00:00:00Z");
                             ("count", JInt 10)]))
  = accepted 2022 7 (JObj ([("site_id", JStr "A")]
                           ++ [("timestamp", JStr "2022-07-01T00:00:00Z");
                               ("count", JInt 10)])).
Proof. apply extra_key_ignored. reflexivity. Defined.

(** ** Dates *)

Lemma datetime_new_spec y m d hh mi ss us tz :
  datetime_new y m d hh mi ss us tz = Ok (mkDatetime y m d hh mi ss us tz)
  <-> well_formed (mkDatetime y m d hh mi ss us tz).
Proof.
  unfold datetime_new, well_formed. cbn [year month day hour minute second microsecond].
  destruct (in_range 1 y 9999 && in_range 1 m 12
            && in_range 1 d (days_in_month y m)
            && in_range 0 hh 23 && in_range 0 mi 59 && in_range 0 ss 59
            && in_range 0 us 999999) eqn:H.
  - rewrite !andb_true_iff, !in_range_spec in H. split; [intros _; tauto | reflexivity].
  - split; [discriminate|]. intros W.
    assert (T : in_range 1 y 9999 && in_range 1 m 12
                && in_range 1 d (days_in_month y m)
                && in_range 0 hh 23 && in_range 0 mi 59 && in_range 0 ss 59
                && in_range 0 us 999999 = true)
      by (rewrite !andb_true_iff, !in_range_spec; tauto).
    congruence.
Qed.

Lemma datetime_new_wf y m d hh mi ss us tz dt :
  datetime_new y m d hh mi ss us tz = Ok dt -> well_formed dt.
Proof.
  intros H. assert (E : dt = mkDatetime y m d hh mi ss us tz).
  { unfold datetime_new in H. destruct (_ && _); [|discriminate]. now injection H. }
  subst dt. now apply datetime_new_spec.
Qed.

Lemma utc_from_epoch_wf sec us dt : utc_from_epoch sec us = Ok dt -> well_formed dt.
Proof.
  unfold utc_from_epoch. destruct (civil_from_days (sec / 86400)) as [[y m] d].
  apply datetime_new_wf.
Qed.

Lemma fromtimestamp_float_wf f dt : fromtimestamp_float f = Ok dt -> well_formed dt.
Proof.
  unfold fromtimestamp_float.
  destruct (trunc_float f) as [ip|]; [|discriminate].
  destruct (round_half_even _) as [us|]; [|discriminate].
  destruct (1000000 <=? us); [apply utc_from_epoch_wf|].
  destruct (us <? 0); apply utc_from_epoch_wf.
Qed.

Lemma fromisoformat_wf s dt : fromisoformat s = Ok dt -> well_formed dt.
Proof.
  unfold fromisoformat.
  destruct (parse_isoformat_date _) as [[[y m] d]|]; [|discriminate].
  destruct (substring 11 _ s); [apply datetime_new_wf|].
  destruct (parse_isoformat_time _) as [[[[[hh mi] ss] us] tz]|]; [|discriminate].
  apply datetime_new_wf.
Qed.

Lemma parse_ts_wf (ts : json) (dt : datetime) :
  parse_ts ts = Ok dt -> well_formed dt.
Proof.
  destruct ts as [|b|n|f|s|l|o]; cbn [parse_ts]; try discriminate.
  - unfold fromtimestamp_int. apply utc_from_epoch_wf.
  - destruct (ms_threshold <? n).
    + unfold int_div_1000. destruct (float_of_Z n); cbn [bind]; [|discriminate].
      apply fromtimestamp_float_wf.
    + unfold fromtimestamp_int. apply utc_from_epoch_wf.
  - destruct (PrimFloat.ltb _ f); apply fromtimestamp_float_wf.
  - destruct (fromisoformat (replace_Z s)) eqn:H1.
    + intros [= <-]. eapply fromisoformat_wf; eauto.
    + destruct (fromisoformat (replace_Z (split_dot_head s))) eqn:H2; [|discriminate].
      intros [= <-]. eapply fromisoformat_wf; eauto.
Qed.

(** X6: whatever [parse_ts] returns is a date and time that exists: the
    year in 1..9999, the month in 1..12, the day within that month (the
    29th of February only in leap years), and the time of day in range. *)
Theorem parse_ts_well_formed (ts : json) (dt : datetime) :
  parse_ts ts = Ok dt -> well_formed dt.
Proof. exact (@parse_ts_wf ts dt). Qed.

Lemma parse_ts_well_formed_witness :
  well_formed (mkDatetime 2024 2 29 12 30 0 0 (Some 0)).
Proof.
  apply (@parse_ts_well_formed (JStr "2024-02-29T12:30:00Z")).
  vm_compute. reflexivity.
Defined.

(** *** The date string read back *)

Lemma digits4 (z : Z) :
  0 <= z <= 9999 ->
  forall rest,
    parse_digits 4 0 (fixed_digits 4 z rest) = Some (z, rest).
Proof.
  intros H rest. cbn [fixed_digits parse_digits].
  destruct (@digit_char (z mod 10)) as [-> _]; [apply Z.mod_pos_bound; lia|].
  destruct (@digit_char (z / 10 mod 10)) as [-> _]; [apply Z.mod_pos_bound; lia|].
  destruct (@digit_char (z / 10 / 10 mod 10)) as [-> _]; [apply Z.mod_pos_bound; lia|].
  destruct (@digit_char (z / 10 / 10 / 10 mod 10)) as [-> _]; [apply Z.mod_pos_bound; lia|].
  do 2 f_equal. Z.div_mod_to_equations. lia.
Qed.

Lemma digits2 (z : Z) :
  0 <= z <= 99 ->
  forall rest,
    parse_digits 2 0 (fixed_digits 2 z rest) = Some (z, rest).
Proof.
  intros H rest. cbn [fixed_digits parse_digits].
  destruct (@digit_char (z mod 10)) as [-> _]; [apply Z.mod_pos_bound; lia|].
  destruct (@digit_char (z / 10 mod 10)) as [-> _]; [apply Z.mod_pos_bound; lia|].
  do 2 f_equal. Z.div_mod_to_equations. lia.
Qed.

Lemma date_isoformat_length dt : String.length (date_isoformat dt) = 10%nat.
Proof. reflexivity. Qed.

Lemma substring_all (s : string) : substring 0 (String.length s) s = s.
Proof. induction s as [|c s IH]; simpl; [reflexivity | now rewrite IH]. Qed.

Lemma substring_past (s : string) (n m : nat) :
  (String.length s <= n)%nat -> substring n m s = EmptyString.
Proof.
  revert n. induction s as [|c s IH]; intros [|n] H; simpl in *;
    try reflexivity; try lia.
  - destruct m; reflexivity.
  - apply IH. lia.
Qed.

Lemma parse_date_isoformat dt :
  well_formed dt ->
  parse_isoformat_date (date_isoformat dt) = Some (year dt, month dt, day dt).
Proof.
  intros (Hy & Hm & Hd & _). pose proof (days_in_month_le (year dt) (month dt)).
  unfold parse_isoformat_date, date_isoformat.
  rewrite digits4 by lia. cbn [is_char negb]. change (Ascii.eqb "-" "-") with true.
  cbn [negb]. rewrite digits2 by lia. change (Ascii.eqb "-" "-") with true.
  cbn [negb]. rewrite digits2 by lia. reflexivity.
Qed.

(** X7: the date string of a parsed timestamp reads back, through
    [fromisoformat], as the midnight of the same calendar date; so two
    parsed timestamps have the same date string exactly when they have
    the same year, month and day. *)
Theorem date_string_round_trip (ts1 ts2 : json) (dt1 dt2 : datetime) :
  parse_ts ts1 = Ok dt1 -> parse_ts ts2 = Ok dt2 ->
  fromisoformat (date_isoformat dt1) = Ok (midnight dt1)
  /\ (date_isoformat dt1 = date_isoformat dt2 <->
      year dt1 = year dt2 /\ month dt1 = month dt2 /\ day dt1 = day dt2).
Proof.
  intros H1 H2. apply parse_ts_wf in H1, H2.
  assert (R : forall dt, well_formed dt ->
                fromisoformat (date_isoformat dt) = Ok (midnight dt)).
  { intros dt W. unfold fromisoformat.
    rewrite <- (date_isoformat_length dt) at 1. rewrite substring_all.
    rewrite (@substring_past (date_isoformat dt) 11) by (rewrite date_isoformat_length; lia).
    rewrite (parse_date_isoformat W). unfold midnight.
    apply datetime_new_spec. destruct W as (Hy & Hm & Hd & _).
    unfold well_formed. cbn [year month day hour minute second microsecond]. lia. }
  split; [now apply R|]. split.
  - intros E. pose proof (parse_date_isoformat H1) as P1.
    pose proof (parse_date_isoformat H2) as P2. rewrite E in P1.
    rewrite P1 in P2. injection P2 as -> -> ->. auto.
  - intros (Ey & Em & Ed). unfold date_isoformat. now rewrite Ey, Em, Ed.
Qed.

Lemma date_string_round_trip_witness :
  fromisoformat (date_isoformat (mkDatetime 2022 7 15 10 0 0 0 (Some 0)))
  = Ok (midnight (mkDatetime 2022 7 15 10 0 0 0 (Some 0)))
  /\ (date_isoformat (mkDatetime 2022 7 15 10 0 0 0 (Some 0))
      = date_isoformat (mkDatetime 2022 7 15 10 0 0 123000 (Some 0))
      <-> 2022 = 2022 /\ 7 = 7 /\ 15 = 15).
Proof.
  apply (@date_string_round_trip (JStr "2022-07-15T10:00:00Z")
           (JStr "2022-07-15T10:00:00.123Z")); vm_compute; reflexivity.
Defined.

(** *** The seconds that have a date *)

Lemma days_from_civil_bounds y m d :
  1 <= y <= 9999 -> 1 <= m <= 12 -> 1 <= d <= 31 ->
  -719162 <= days_from_civil y m d <= 2932896.
Proof.
  intros. unfold days_from_civil.
  destruct (m <=? 2) eqn:E1; destruct (2 <? m) eqn:E2;
    try apply Z.leb_le in E1; try apply Z.leb_gt in E1;
    try apply Z.ltb_lt in E2; try apply Z.ltb_ge in E2; try lia;
    Z.div_mod_to_equations; lia.
Qed.

Lemma days_from_civil_outside y m d :
  1 <= m <= 12 -> 1 <= d <= 31 ->
  (y <= 0 -> days_from_civil y m d < -719162)
  /\ (10000 <= y -> 2932896 < days_from_civil y m d).
Proof.
  intros. unfold days_from_civil.
  destruct (m <=? 2) eqn:E1; destruct (2 <? m) eqn:E2;
    try apply Z.leb_le in E1; try apply Z.leb_gt in E1;
    try apply Z.ltb_lt in E2; try apply Z.ltb_ge in E2; try lia;
    split; intros; Z.div_mod_to_equations; lia.
Qed.

Lemma is_leap_spec y :
  is_leap y = true <-> y mod 4 = 0 /\ (y mod 100 <> 0 \/ y mod 400 = 0).
Proof.
  unfold is_leap. rewrite andb_true_iff, orb_true_iff, negb_true_iff.
  rewrite !Z.eqb_eq, Z.eqb_neq. tauto.
Qed.


Lemma days_in_month_cases y m :
  (m = 2 -> days_in_month y m = if is_leap y then 29 else 28)
  /\ (m = 4 \/ m = 6 \/ m = 9 \/ m = 11 -> days_in_month y m = 30)
  /\ (m <> 2 -> m <> 4 -> m <> 6 -> m <> 9 -> m <> 11 -> days_in_month y m = 31).
Proof.
  unfold days_in_month.
  destruct (Z.eqb_spec m 2), (Z.eqb_spec m 4), (Z.eqb_spec m 6),
    (Z.eqb_spec m 9), (Z.eqb_spec m 11); cbn [orb];
    repeat split; intros; try reflexivity; lia.
Qed.

Lemma civil_from_days_valid z :
  let '(y, m, d) := civil_from_days z in
  1 <= m <= 12 /\ 1 <= d <= days_in_month y m.
Proof.
  unfold civil_from_days. cbv zeta.
  set (z' := z + 719468).
  set (era := z' / 146097).
  set (doe := z' - era * 146097).
  assert (Hdoe : 0 <= doe < 146097) by (unfold doe, era; Z.div_mod_to_equations; lia).
  set (yoe := (doe - doe / 1460 + doe / 36524 - doe / 146096) / 365).
  set (doy := doe - (365 * yoe + yoe / 4 - yoe / 100)).
  assert (Hy : 0 <= yoe <= 399 /\ 0 <= doy <= 365)
    by (unfold doy, yoe; Z.div_mod_to_equations; lia).
  assert (Hleap : doy = 365 ->
            (yoe + 1) mod 4 = 0 /\ ((yoe + 1) mod 100 <> 0 \/ (yoe + 1) mod 400 = 0))
    by (unfold doy, yoe; intros; Z.div_mod_to_equations; lia).
  set (mp := (5 * doy + 2) / 153).
  assert (Hmp : 0 <= mp <= 11) by (unfold mp; Z.div_mod_to_equations; lia).
  set (d := doy - (153 * mp + 2) / 5 + 1).
  assert (Hd : 1 <= d <= 31 /\ (mp = 1 \/ mp = 3 \/ mp = 6 \/ mp = 8 -> d <= 30)
               /\ (mp = 11 -> d <= 29 /\ (d = 29 -> doy = 365)))
    by (unfold d, mp in *; Z.div_mod_to_equations; lia).
  destruct Hd as (Hd31 & Hd30 & Hd29).
  set (m := if mp <? 10 then mp + 3 else mp - 9).
  assert (Hm : (mp < 10 /\ m = mp + 3) \/ (10 <= mp /\ m = mp - 9)).
  { unfold m. destruct (mp <? 10) eqn:E;
      [apply Z.ltb_lt in E | apply Z.ltb_ge in E]; clear - E; lia. }
  clearbody m.
  split; [clear - Hm Hmp; lia|]. split; [exact (proj1 Hd31)|].
  set (y := if m <=? 2 then yoe + era * 400 + 1 else yoe + era * 400).
  destruct (days_in_month_cases y m) as (D2 & D30 & D31).
  assert (Cm : m = 2 \/ (m = 4 \/ m = 6 \/ m = 9 \/ m = 11)
               \/ (m <> 2 /\ m <> 4 /\ m <> 6 /\ m <> 9 /\ m <> 11))
    by (clear; lia).
  destruct Cm as [C | [C | C]].
  - rewrite (D2 C). assert (Hmp11 : mp = 11) by (clear - Hm Hmp C; lia).
    destruct (Hd29 Hmp11) as [H29 H365].
    destruct (is_leap y) eqn:L; [exact H29|].
    assert (Hne : d <> 29); [|clear - H29 Hne; lia]. intros E. apply H365, Hleap in E.
    assert (is_leap y = true); [|congruence].
    apply is_leap_spec. unfold y. rewrite C.
    cbn [Z.leb Z.compare Pos.compare Pos.compare_cont].
    destruct E as [E4 E100]. clear - E4 E100. Z.div_mod_to_equations. lia.
  - rewrite (D30 C). apply Hd30. clear - Hm Hmp C. lia.
  - rewrite D31 by tauto. exact (proj2 Hd31).
Qed.

(** X8: an integer timestamp of at most 10^12 parses exactly when it lies
    between the first second of year 1 and the last second of year 9999;
    so the seconds from 253402300800 to 10^12 are rejected, not read as
    milliseconds. *)
Theorem int_seconds_domain (n : Z) :
  n <= 10 ^ 12 ->
  (is_ok (parse_ts (JInt n)) = true <-> min_epoch <= n <= max_epoch).
Proof.
  intros Hn. cbn [parse_ts]. unfold ms_threshold.
  destruct (10 ^ 12 <? n) eqn:E; [apply Z.ltb_lt in E; lia|]. clear E Hn.
  unfold fromtimestamp_int, min_epoch, max_epoch. split.
  - destruct (utc_from_epoch n 0) as [dt|] eqn:H; [intros _|discriminate].
    destruct (utc_from_epoch_instant _ _ H) as (Hs & _ & _).
    apply utc_from_epoch_wf in H.
    destruct H as (Hy & Hm & Hd & Hh & Hmi & Hss & _).
    pose proof (days_in_month_le (year dt) (month dt)) as Hle.
    assert (Hd31 : 1 <= day dt <= 31) by lia.
    pose proof (days_from_civil_bounds Hy Hm Hd31) as Hb.
    unfold epoch_seconds in Hs. clear - Hs Hb Hh Hmi Hss. lia.
  - intros Hr. unfold utc_from_epoch.
    pose proof (civil_from_days_valid (n / 86400)) as Hv.
    pose proof (civil_roundtrip (n / 86400)) as Hrt.
    destruct (civil_from_days (n / 86400)) as [[y m] d].
    destruct Hv as (Hm & Hd).
    pose proof (days_in_month_le y m) as Hle.
    assert (Hd31 : 1 <= d <= 31) by lia.
    destruct (@days_from_civil_outside y m d Hm Hd31) as (Hlo & Hhi).
    assert (Hdays : -719162 <= n / 86400 <= 2932896)
      by (clear - Hr; Z.div_mod_to_equations; lia).
    assert (Hy : 1 <= y <= 9999) by (clear - Hlo Hhi Hrt Hdays; lia).
    assert (W : well_formed (mkDatetime y m d (n mod 86400 / 3600)
                               (n mod 86400 mod 3600 / 60) (n mod 86400 mod 60)
                               0 (Some 0))).
    { unfold well_formed. cbn [year month day hour minute second microsecond].
      split; [exact Hy|]. split; [exact Hm|]. split; [exact Hd|].
      clear. Z.div_mod_to_equations. lia. }
    apply datetime_new_spec in W. rewrite W. reflexivity.
Qed.

Lemma int_seconds_domain_witness :
  is_ok (parse_ts (JInt 253402300799)) = true
  /\ (is_ok (parse_ts (JInt 253402300800)) = true -> False).
Proof.
  split.
  - apply (proj2 (@int_seconds_domain 253402300799 ltac:(vm_compute; discriminate))).
    unfold min_epoch, max_epoch. lia.
  - intros H.
    apply (proj1 (@int_seconds_domain 253402300800 ltac:(vm_compute; discriminate))) in H.
    unfold max_epoch in H. lia.
Defined.

(** ** Sorting the days *)

Lemma ascending_insert s l : ascending l -> ascending (insert_sorted s l).
Proof.
  induction l as [|a l IH]; intros H; [exact I|].
  cbn [insert_sorted]. destruct (String.leb s a) eqn:E.
  - cbn [ascending]. split; [exact E | exact H].
  - assert (Ha : String.leb a s = true)
      by (destruct (String.leb_total s a); congruence).
    destruct l as [|b l].
    + cbn [insert_sorted ascending]. auto.
    + cbn [ascending] in H. destruct H as [Hab Hl].
      specialize (IH Hl). cbn [insert_sorted] in IH |- *.
      destruct (String.leb s b); cbn [ascending] in *; auto.
Qed.

Lemma insert_sorted_perm s l : Permutation (s :: l) (insert_sorted s l).
Proof.
  induction l as [|a l IH]; cbn [insert_sorted]; [reflexivity|].
  destruct (String.leb s a); [reflexivity|].
  rewrite perm_swap. now apply perm_skip.
Qed.

Lemma sorted_asc (l : list string) : ascending (sorted l).
Proof.
  unfold sorted. induction l as [|a l IH]; cbn [fold_right].
  - exact I.
  - now apply ascending_insert.
Qed.

Lemma sorted_perm (l : list string) : Permutation l (sorted l).
Proof.
  unfold sorted. induction l as [|a l IH]; cbn [fold_right].
  - constructor.
  - rewrite <- insert_sorted_perm. now apply perm_skip.
Qed.


(** ** What is counted *)

Lemma total_hours_set (hours : hours_t) (k : key) :
  total_hours (dict_set key_eqb hours k (dict_get_default key_eqb 0 hours k + 1))
  = total_hours hours + 1.
Proof.
  unfold total_hours, dict_get_default.
  induction hours as [|[k' v] hours IH]; cbn [dict_set dict_get map fold_right snd].
  - lia.
  - destruct (key_eqb k' k); cbn [map fold_right snd]; lia.
Qed.

Lemma total_values_set (days : days_t) (d : string) (x : float) :
  total_values (dict_set String.eqb days d
                  (dict_get_default String.eqb [] days d ++ [x])%list)
  = S (total_values days).
Proof.
  unfold total_values, dict_get_default.
  induction days as [|[d' v] days IH]; cbn [dict_set dict_get map fold_right snd].
  - reflexivity.
  - destruct (String.eqb d' d); cbn [map fold_right snd].
    + rewrite length_app. cbn [List.length]. lia.
    + rewrite IH. lia.
Qed.

Lemma stage1_counts l st totals hours :
  stage1 l st = Ok (totals, hours) ->
  total_hours hours = total_hours (snd st) + Z.of_nat (List.length l).
Proof.
  revert st. induction l as [|[[site d] c] l IH]; intros [t0 h0]; simpl stage1.
  - intros [= <- <-]. simpl. lia.
  - destruct (hashable site); cbn [bind]; [|discriminate].
    intros H. rewrite (IH _ H). cbn [snd]. rewrite total_hours_set.
    cbn [List.length]. lia.
Qed.

Lemma day_to_site_avgs_counts keys totals hours acc days :
  day_to_site_avgs keys totals hours acc = Ok days ->
  total_values days = (total_values acc + List.length keys)%nat.
Proof.
  revert acc. induction keys as [|k keys IH]; intros acc; cbn [day_to_site_avgs].
  - intros [= <-]. cbn [List.length]. lia.
  - destruct (true_div _ _) as [avg|]; cbn [bind]; [|discriminate].
    intros H. rewrite (IH _ H), total_values_set. cbn [List.length]. lia.
Qed.

(** X10: nothing is counted twice and nothing is lost: the counts of
    stage 1 add up to the number of accepted samples, and the lists of
    stage 2 hold, all days together, one average per site-day key. *)
Theorem counts_conserved (samples : list sample) (totals : totals_t)
    (hours : hours_t) (days : days_t) :
  stage1 samples ([], []) = Ok (totals, hours) ->
  day_to_site_avgs (map fst hours) totals hours [] = Ok days ->
  total_hours hours = Z.of_nat (List.length samples)
  /\ List.length totals = List.length hours
  /\ total_values days = List.length hours.
Proof.
  intros H1 H2. split; [|split].
  - rewrite (stage1_counts _ _ H1). reflexivity.
  - destruct (stage1_invariant _ H1) as [(Kt & Kh & _) _]. cbn [fst snd] in Kt, Kh.
    rewrite <- (length_map fst totals), <- (length_map fst hours). congruence.
  - rewrite (day_to_site_avgs_counts _ _ _ _ H2), length_map. reflexivity.
Qed.

Lemma counts_conserved_witness :
  total_hours [((JStr "A", "2022-07-01"), 2); ((JStr "B", "2022-07-01"), 1)]
  = Z.of_nat (List.length (filtered scenario 2022 7))
  /\ List.length [((JStr "A", "2022-07-01"), 30%float);
                  ((JStr "B", "2022-07-01"), 100%float)]
     = List.length [((JStr "A", "2022-07-01"), 2); ((JStr "B", "2022-07-01"), 1)]
  /\ total_values [("2022-07-01", [15%float; 100%float])]
     = List.length [((JStr "A", "2022-07-01"), 2); ((JStr "B", "2022-07-01"), 1)].
Proof.
  apply (@counts_conserved (filtered scenario 2022 7)); vm_compute; reflexivity.
Defined.

(** ** The mean *)

Lemma add_parts_swap a p q :
  add_parts (add_parts a p) q = add_parts (add_parts a q) p.
Proof.
  destruct a as [n0 e0], p as [n1 e1], q as [n2 e2]. unfold add_parts.
  cbn [fst snd].
  set (e := Z.min (Z.min e0 e1) e2).
  replace (Z.min (Z.min e0 e2) e1) with e by (unfold e; lia).
  f_equal.
  assert (P : forall x u v, v <= u -> u <= x ->
                2 ^ (x - u) * 2 ^ (u - v) = 2 ^ (x - v)).
  { intros x u v H1 H2. rewrite <- Z.pow_add_r by lia. f_equal. lia. }
  rewrite !Z.mul_add_distr_r, <- !Z.mul_assoc.
  rewrite !P by (unfold e; lia). lia.
Qed.

Lemma exact_sum_perm l l' :
  Permutation l l' -> forall acc, exact_sum l acc = exact_sum l' acc.
Proof.
  induction 1 as [|x l l' _ IH|x y l|l l' l'' _ IH1 _ IH2]; intros acc;
    cbn [exact_sum].
  - reflexivity.
  - destruct (float_parts x); apply IH.
  - destruct (float_parts y) as [p|], (float_parts x) as [q|]; try reflexivity.
    now rewrite add_parts_swap.
  - now rewrite IH1.
Qed.

Lemma nonfinite_sum_finite l acc :
  Forall (fun x => is_finite x = true) l -> nonfinite_sum l acc = acc.
Proof.
  intros H. revert acc. induction H as [|x l Hx _ IH]; intros acc;
    cbn [nonfinite_sum]; [reflexivity|].
  rewrite Hx. apply IH.
Qed.

(** X11: the mean of finite values does not depend on their order (the
    sum is exact), so a day's cross-site average is the same whichever
    site came first in the input. *)
Theorem mean_order_independent (l l' : list float) :
  Permutation l l' ->
  Forall (fun x => is_finite x = true) l ->
  mean l = mean l'.
Proof.
  intros P F.
  assert (F' : Forall (fun x => is_finite x = true) l').
  { rewrite Forall_forall in *. intros x Hx. apply F.
    apply (Permutation_in x (Permutation_sym P) Hx). }
  unfold mean. rewrite (nonfinite_sum_finite None F), (nonfinite_sum_finite None F').
  rewrite (exact_sum_perm P), (Permutation_length P).
  destruct l as [|a l], l' as [|b l']; try reflexivity.
  - apply Permutation_nil in P. discriminate.
  - apply Permutation_sym, Permutation_nil in P. discriminate.
Qed.

Lemma mean_order_independent_witness :
  mean [15%float; 100%float; 0.5%float] = mean [0.5%float; 100%float; 15%float].
Proof.
  apply mean_order_independent.
  - apply perm_trans with [100%float; 15%float; 0.5%float].
    + apply perm_swap.
    + apply perm_trans with [100%float; 0.5%float; 15%float].
      * apply perm_skip, perm_swap.
      * apply perm_swap.
  - repeat constructor.
Defined.

(** ** The notice and the chart *)

Lemma first_keys_nil l :
  hashable_sites l -> first_keys l = [] -> l = [].
Proof.
  intros Hh Hk. destruct l as [|s l]; [reflexivity|].
  pose proof (sample_key_seen _ Hh (or_introl eq_refl)) as Hs.
  rewrite Hk in Hs. discriminate.
Qed.

(** X12: the run prints the notice, and nothing else, exactly when no
    record is accepted for the requested year and month. *)
Theorem notice_iff_no_samples (data : list json) (y m : Z) :
  main data y m = Ok [Print no_data_notice] <-> filtered data y m = [].
Proof.
  split.
  - intros H. destruct (main_inv _ _ _ H) as (totals & hours & H1 & [[Ha _] | Hr]).
    + destruct (stage1_invariant _ H1) as [Hinv Hall].
      apply (first_keys_nil Hall).
      pose proof Hinv as (Kt & _ & _). cbn [fst] in Kt.
      unfold site_day_avgs in Ha. rewrite Kt in Ha.
      rewrite (flat_map_singletons (site_day_avg totals hours)
                 (mean_of_samples (filtered data y m))) in Ha.
      * now apply map_eq_nil in Ha.
      * intros k Hk. apply (site_day_avg_stored k Hinv).
        now apply first_keys_seen.
    + destruct Hr as (days & xs & ys & _ & _ & _ & E). discriminate.
  - intros H. unfold main. rewrite H. reflexivity.
Qed.

Lemma notice_iff_no_samples_witness :
  filtered scenario 2022 8 = [].
Proof.
  apply (proj1 (notice_iff_no_samples scenario 2022 8)).
  vm_compute. reflexivity.
Defined.

(** *** The order of the dates of one month *)

Lemma ascii_compare_refl (c : ascii) : Ascii.compare c c = Eq.
Proof. unfold Ascii.compare. apply N.compare_refl. Qed.

Lemma compare_prefix (p a b : string) :
  String.compare (p ++ a) (p ++ b) = String.compare a b.
Proof.
  induction p as [|c p IH]; cbn [append String.compare]; [reflexivity|].
  now rewrite ascii_compare_refl.
Qed.

Lemma date_isoformat_split dt :
  date_isoformat dt
  = (fixed_digits 4 (year dt) EmptyString
     ++ String "-" (fixed_digits 2 (month dt) EmptyString) ++ "-")
    ++ two_digits (day dt).
Proof.
  unfold date_isoformat, two_digits.
  rewrite (fixed_digits_acc 4), (fixed_digits_acc 2 (month dt)).
  rewrite !string_app_assoc. reflexivity.
Qed.

Lemma two_digit_table :
  forallb (fun a => forallb (two_digit_order_ok a) below_100) below_100 = true.
Proof. vm_compute. reflexivity. Qed.

Lemma in_below_100 (a : Z) : 0 <= a < 100 -> In a below_100.
Proof.
  intros H. unfold below_100. apply in_map_iff. exists (Z.to_nat a).
  split; [lia|]. apply in_seq. lia.
Qed.

Lemma two_digit_order (a b : Z) :
  0 <= a < 100 -> 0 <= b < 100 ->
  String.leb (two_digits a) (two_digits b) = true -> a <= b.
Proof.
  intros Ha Hb H. pose proof two_digit_table as T.
  rewrite forallb_forall in T. specialize (T a (in_below_100 Ha)).
  rewrite forallb_forall in T. specialize (T b (in_below_100 Hb)).
  unfold two_digit_order_ok in T. rewrite H in T. cbn [implb] in T.
  now apply Z.leb_le.
Qed.

Lemma date_order dt1 dt2 :
  year dt1 = year dt2 -> month dt1 = month dt2 ->
  1 <= day dt1 <= 31 -> 1 <= day dt2 <= 31 ->
  String.leb (date_isoformat dt1) (date_isoformat dt2) = true ->
  day dt1 <= day dt2.
Proof.
  intros Ey Em H1 H2. rewrite !date_isoformat_split, Ey, Em.
  unfold String.leb. rewrite compare_prefix.
  intros H. apply two_digit_order; [lia | lia | exact H].
Qed.

(** Every date of the accepted samples is the ISO text of a date of the
    requested month. *)
Lemma filtered_dates_month data y m s :
  In s (filtered data y m) ->
  exists dt, well_formed dt /\ year dt = y /\ month dt = m
             /\ snd (fst s) = date_isoformat dt.
Proof.
  intros Hs. apply in_filtered in Hs. destruct Hs as (rec & _ & Ha).
  apply accepted_inv in Ha.
  destruct Ha as (cnt & ts & dt & site & c & _ & _ & _ & Hp & Hy & Hm & _ & _ & ->).
  exists dt. split; [eapply parse_ts_wf; eauto|]. auto.
Qed.

Lemma mapM_forall2 (A B : Type) (f : A -> result B) l bs :
  mapM f l = Ok bs -> Forall2 (fun a b => f a = Ok b) l bs.
Proof.
  revert bs. induction l as [|a l IH]; intros bs; cbn [mapM].
  - intros [= <-]. constructor.
  - destruct (f a) as [b|] eqn:Ea; cbn [bind]; [|discriminate].
    destruct (mapM f l) as [bs'|]; cbn [bind]; [|discriminate].
    intros [= <-]. constructor; [exact Ea | now apply IH].
Qed.

Lemma group_days_nodup f keys acc :
  NoDup (map fst acc) -> NoDup (map fst (group_days f keys acc)).
Proof.
  revert acc. induction keys as [|k keys IH]; intros acc H; cbn [group_days];
    [exact H|].
  apply IH. rewrite keys_dict_set.
  destruct (existsb (fun k' => String.eqb k' (snd k)) (map fst acc)) eqn:E;
    [exact H|].
  apply NoDup_app; [exact H | repeat constructor; intros [] |].
  intros x Hx [Ex|[]]. subst x.
  assert (existsb (fun k' => String.eqb k' (snd k)) (map fst acc) = true);
    [|congruence].
  apply existsb_exists. exists (snd k). split; [exact Hx | apply String.eqb_refl].
Qed.

Lemma increasing_days (y m : Z) (ds : list string) (xs : list Z) :
  Forall2 (fun d x => exists dt, d = date_isoformat dt /\ year dt = y
                                 /\ month dt = m /\ 1 <= day dt <= 31
                                 /\ x = day dt) ds xs ->
  ascending ds -> NoDup ds ->
  increasing xs /\ Forall (fun x => 1 <= x <= 31) xs.
Proof.
  induction 1 as [|d x ds xs (dt & -> & Hy & Hm & Hd & ->) HF IH];
    intros Ha Hn; [split; constructor|].
  apply NoDup_cons_iff in Hn. destruct Hn as [Hnin Hn'].
  assert (Ha' : ascending ds) by (destruct ds; [exact I | apply Ha]).
  destruct (IH Ha' Hn') as [Hinc Hall].
  split; [|constructor; [exact Hd | exact Hall]].
  destruct HF as [|d2 x2 ds2 xs2 (dt2 & -> & Hy2 & Hm2 & Hd2 & ->) HF2];
    [exact I|].
  cbn [increasing]. split; [|exact Hinc].
  cbn [ascending] in Ha. destruct Ha as [Hle _].
  assert (Hord : day dt <= day dt2)
    by (apply date_order; [congruence | congruence | exact Hd | exact Hd2 | exact Hle]).
  assert (Hne : day dt <> day dt2).
  { intros E. apply Hnin. left. unfold date_isoformat.
    rewrite Hy2, Hm2, <- Hy, <- Hm, E. reflexivity. }
  lia.
Qed.

(** X13: the x values of the chart are days of the month in strictly
    increasing order, each between 1 and 31, with as many y values as x
    values; the day of every accepted sample is among them; the file name
    is made of the requested year and month. *)
Theorem chart_points (data : list json) (y m : Z) (avgs : list float)
    (out : string) (xs : list Z) (ys : list float) (line : event) :
  main data y m = Ok [PrintStats y m avgs; SaveFig out xs ys; line] ->
  increasing xs
  /\ Forall (fun x => 1 <= x <= 31) xs
  /\ List.length xs = List.length ys
  /\ (forall s, In s (filtered data y m) ->
        exists dt, snd (fst s) = date_isoformat dt /\ In (day dt) xs)
  /\ out = chart_name y m.
Proof.
  intros H. destruct (main_inv _ _ _ H) as (totals & hours & H1 & [[_ E] | Hr]);
    [discriminate|].
  destruct Hr as (days & xs' & ys' & Hdays & Hys & Hxs & E).
  injection E as _ <- <- <- _.
  destruct (stage1_invariant _ H1) as [Hinv Hall].
  pose proof Hinv as (_ & Kh & _). cbn [snd] in Kh.
  assert (Ed : days = group_days (mean_of_samples (filtered data y m))
                                 (first_keys (filtered data y m)) []).
  { rewrite Kh in Hdays.
    rewrite (@day_to_site_avgs_ok (filtered data y m) totals hours) in Hdays.
    - now injection Hdays.
    - exact Hinv.
    - intros k Hk. now apply first_keys_seen. }
  assert (Hkeys : forall d, In d (sorted_days days) <->
                            In d (map snd (first_keys (filtered data y m)))).
  { intros d. unfold sorted_days. rewrite in_sorted, Ed, group_days_keys.
    split; [intros [[]|Hd]; exact Hd | intros Hd; now right]. }
  pose proof (sorted_asc (map fst days)) as Hasc.
  pose proof (sorted_perm (map fst days)) as Hperm.
  fold (sorted_days days) in Hasc, Hperm.
  assert (Hnd : NoDup (sorted_days days)).
  { apply (Permutation_NoDup Hperm). rewrite Ed. apply group_days_nodup. constructor. }
  assert (HF : Forall2 (fun d x => exists dt, d = date_isoformat dt /\ year dt = y
                                   /\ month dt = m /\ 1 <= day dt <= 31
                                   /\ x = day dt) (sorted_days days) xs).
  { apply mapM_forall2 in Hxs.
    assert (G : forall ds xs0,
               (forall d, In d ds -> In d (sorted_days days)) ->
               Forall2 (fun a b => int_of_string (split_dash_last a) = Ok b) ds xs0 ->
               Forall2 (fun d x => exists dt, d = date_isoformat dt /\ year dt = y
                                   /\ month dt = m /\ 1 <= day dt <= 31
                                   /\ x = day dt) ds xs0).
    { intros ds xs0 Hsub HF0. induction HF0 as [|d x ds xs0 Hdx _ IH];
        constructor.
      - assert (Hd : In d (sorted_days days)) by (apply Hsub; now left).
        apply Hkeys, in_map_iff in Hd. destruct Hd as (k & <- & Hk).
        destruct (first_keys_in _ _ Hk) as (s & Hs & <-).
        destruct (filtered_dates_month _ _ _ _ Hs) as (dt & W & Hy & Hm & Ed').
        pose proof W as (_ & _ & Hday & _).
        pose proof (days_in_month_le (year dt) (month dt)).
        assert (V : valid_datetime dt)
          by (destruct W as (? & ? & ? & _); unfold valid_datetime; lia).
        rewrite Ed' in Hdx. rewrite (day_of_isoformat V) in Hdx.
        injection Hdx as <-. exists dt. repeat split; auto; lia.
      - apply IH. intros d' Hd'. apply Hsub. now right. }
    apply G; [auto | exact Hxs]. }
  destruct (increasing_days HF Hasc Hnd) as [Hinc Hrange].
  split; [exact Hinc|]. split; [exact Hrange|]. split; [|split; [|reflexivity]].
  - apply mapM_forall2 in Hys. apply Forall2_length in Hys.
    apply Forall2_length in HF. congruence.
  - intros s Hs.
    destruct (@keys_of_day_sample _ _ Hall Hs) as (k & Hk & _).
    unfold keys_of_day in Hk. apply filter_In in Hk. destruct Hk as [Hk He].
    apply String.eqb_eq in He.
    assert (Hd : In (snd (fst s)) (sorted_days days))
      by (apply Hkeys, in_map_iff; eauto).
    clear - HF Hd. induction HF as [|d x ds xs0 (dt & -> & _ & _ & _ & ->) _ IH].
    + destruct Hd.
    + destruct Hd as [<- | Hd].
      * exists dt. split; [reflexivity | now left].
      * destruct (IH Hd) as (dt' & E' & Hin). exists dt'. split; [exact E' | now right].
Qed.

Lemma chart_points_witness :
  increasing [1]
  /\ Forall (fun x => 1 <= x <= 31) [1]
  /\ List.length [1] = List.length [57.5%float]
  /\ (forall s, In s (filtered scenario 2022 7) ->
        exists dt, snd (fst s) = date_isoformat dt /\ In (day dt) [1])
  /\ "daily_avg_hourly_across_sites_2022_7.png" = chart_name 2022 7.
Proof.
  apply (@chart_points scenario 2022 7 [15%float; 100%float]
           "daily_avg_hourly_across_sites_2022_7.png" [1] [57.5%float]
           (Print "Saved line chart to daily_avg_hourly_across_sites_2022_7.png")).
  vm_compute. reflexivity.
Defined.

(** ** What a run reports *)

(** X14: a run that reports prints the site-day averages of the accepted
    samples, one per site-day in first-seen order, each the sum of that
    site-day's counts over their number; it plots, for exactly the dates
    of the accepted samples, the mean of that date's site-day averages
    against the day of the month; and its last line names the chart. *)
Theorem main_report (data : list json) (y m : Z) (avgs : list float)
    (out : string) (xs : list Z) (ys : list float) (line : event) :
  main data y m = Ok [PrintStats y m avgs; SaveFig out xs ys; line] ->
  avgs = map (mean_of_samples (filtered data y m)) (first_keys (filtered data y m))
  /\ avgs <> []
  /\ line = Print ("Saved line chart to " ++ out)
  /\ exists dates : list string,
       (forall d, In d dates <->
                  exists s, In s (filtered data y m) /\ snd (fst s) = d)
       /\ Forall2 (fun d yv =>
                     mean (map (mean_of_samples (filtered data y m))
                               (keys_of_day d (filtered data y m))) = Ok yv)
                  dates ys
       /\ Forall2 (fun d x => int_of_string (split_dash_last d) = Ok x) dates xs.
Proof.
  intros H. destruct (main_inv _ _ _ H) as (totals & hours & H1 & [[_ E] | Hr]);
    [discriminate|].
  destruct Hr as (days & xs' & ys' & Hdays & Hys & Hxs & E).
  injection E as E1 E2 E3 E4 E5. subst xs' ys' out line.
  destruct (stage1_invariant _ H1) as [Hinv Hall].
  pose proof Hinv as (Kt & Kh & _). cbn [fst snd] in Kt, Kh.
  assert (Ea : site_day_avgs totals hours
               = map (mean_of_samples (filtered data y m))
                     (first_keys (filtered data y m))).
  { unfold site_day_avgs. rewrite Kt. apply flat_map_singletons.
    intros k Hk. apply (site_day_avg_stored k Hinv). now apply first_keys_seen. }
  assert (Ed : days = group_days (mean_of_samples (filtered data y m))
                                 (first_keys (filtered data y m)) []).
  { rewrite Kh in Hdays.
    rewrite (@day_to_site_avgs_ok (filtered data y m) totals hours) in Hdays.
    - now injection Hdays.
    - exact Hinv.
    - intros k Hk. now apply first_keys_seen. }
  split; [congruence|]. split; [|split; [reflexivity|]].
  { intros E0. unfold main in H. rewrite H1 in H. cbn [bind] in H.
    rewrite <- E1, E0 in H. discriminate. }
  exists (sorted_days days). split; [|split].
  - intros d. unfold sorted_days. rewrite in_sorted, Ed, group_days_keys. split.
    + intros [[]|Hd]. apply in_map_iff in Hd. destruct Hd as (k & <- & Hk).
      destruct (first_keys_in _ _ Hk) as (s & Hs & <-). eauto.
    + intros (s & Hs & <-). right.
      destruct (@keys_of_day_sample _ _ Hall Hs) as (k & Hk & _).
      unfold keys_of_day in Hk. apply filter_In in Hk. destruct Hk as [Hk He].
      apply String.eqb_eq in He. apply in_map_iff. eauto.
  - apply mapM_forall2 in Hys.
    refine (Forall2_impl _ _ Hys). intros d yv Hm.
    rewrite Ed, group_days_get in Hm. exact Hm.
  - now apply mapM_forall2 in Hxs.
Qed.

Lemma main_report_witness :
  [15%float; 100%float]
  = map (mean_of_samples (filtered scenario 2022 7))
        (first_keys (filtered scenario 2022 7))
  /\ [15%float; 100%float] <> []
  /\ Print "Saved line chart to daily_avg_hourly_across_sites_2022_7.png"
     = Print ("Saved line chart to " ++ "daily_avg_hourly_across_sites_2022_7.png")
  /\ exists dates : list string,
       (forall d, In d dates <->
                  exists s, In s (filtered scenario 2022 7) /\ snd (fst s) = d)
       /\ Forall2 (fun d yv =>
                     mean (map (mean_of_samples (filtered scenario 2022 7))
                               (keys_of_day d (filtered scenario 2022 7))) = Ok yv)
                  dates [57.5%float]
       /\ Forall2 (fun d x => int_of_string (split_dash_last d) = Ok x) dates [1].
Proof.
  apply (@main_report scenario 2022 7 [15%float; 100%float]
           "daily_avg_hourly_across_sites_2022_7.png" [1] [57.5%float]
           (Print "Saved line chart to daily_avg_hourly_across_sites_2022_7.png")).
  vm_compute. reflexivity.
Defined.

(** ** Reading the input in parts *)

Lemma filtered_app d1 d2 y m :
  filtered (d1 ++ d2) y m = (filtered d1 y m ++ filtered d2 y m)%list.
Proof.
  induction d1 as [|rec d1 IH]; cbn [app filtered]; [reflexivity|].
  destruct (accepted y m rec); cbn [app]; now rewrite IH.
Qed.

Lemma stage1_app l1 l2 st :
  stage1 (l1 ++ l2) st = (st' <- stage1 l1 st ;; stage1 l2 st').
Proof.
  revert st. induction l1 as [|s l1 IH]; intros st; cbn [app stage1 bind];
    [reflexivity|].
  destruct (accumulate st s); cbn [bind]; [apply IH | reflexivity].
Qed.

(** X15: each record is judged on its own and the dictionaries are filled
    in input order, so reading two arrays one after the other, the second
    from the state the first left, gives what reading their concatenation
    gives; in particular a first part that raises makes the whole raise. *)
Theorem reading_in_parts (d1 d2 : list json) (y m : Z) :
  filtered (d1 ++ d2) y m = (filtered d1 y m ++ filtered d2 y m)%list
  /\ stage1 (filtered (d1 ++ d2) y m) ([], [])
     = (st <- stage1 (filtered d1 y m) ([], []) ;; stage1 (filtered d2 y m) st)
  /\ (forall e, stage1 (filtered d1 y m) ([], []) = Raise e ->
                main (d1 ++ d2) y m = Raise e).
Proof.
  split; [apply filtered_app|]. split.
  - rewrite filtered_app. apply stage1_app.
  - intros e He. unfold main. rewrite filtered_app, stage1_app, He. reflexivity.
Qed.

Lemma reading_in_parts_witness :
  main (list_site_data ++ scenario) 2022 7 = Raise TypeError.
Proof.
  apply (proj2 (proj2 (reading_in_parts list_site_data scenario 2022 7))).
  vm_compute. reflexivity.
Defined.

(** ** The date of a string timestamp *)














